(** * langchain_core: fake embeddings and the pydantic output parser

    A shallow embedding of
    - [langchain_core/embeddings/fake.py]
      ([FakeEmbeddings], [DeterministicFakeEmbedding]) and
    - [langchain_core/output_parsers/pydantic.py]
      ([PydanticOutputParser]),
    together with the properties their specification states.

    Python values are modelled as follows.
    - [str] is a list of Unicode code points ([N]); a literal is written
      [py "..."].
    - [int] is [Z].
    - An exception is a value of [exn]; a computation that may raise has
      type [result A]; one that also reads and writes a store ([np.random]'s
      global generator, the heap of dict objects) has type [state S A].
    - A list comprehension is [mapM]. *)

From Stdlib Require Import ZArith NArith List String Ascii Lia.
From Stdlib Require Import DecimalFacts DecimalPos DecimalZ.
From stdpp Require Import base tactics option list numbers.

#[global] Set Warnings "-register-all".

Local Open Scope Z_scope.

(** ** Python strings *)

Abbreviation str := (list N).

Definition py (s : string) : str := N_of_ascii <$> list_ascii_of_string s.
Arguments py s%_string.

(** ** Exceptions and results *)

Inductive exn : Type :=
  | IndexError
  | AttributeError (msg : str)
  | RecursionError
  | SystemError (msg : str)
  | KeyError (key : str)
  | ValueError (msg : str)
  | UnicodeEncodeError (position : nat) (code_point : N)
  | JSONDecodeError (msg : str) (position : nat)
  | ValidationError (msg : str)
  | OutputParserException (msg : str) (llm_output : option str)
                          (cause : option exn).

Inductive result (A : Type) : Type :=
  | Ok (a : A)
  | Raise (e : exn).
Arguments Ok {A} a.
Arguments Raise {A} e.

Global Instance result_ret : MRet result := λ A, Ok.
Global Instance result_bind : MBind result := λ A B f m,
  match m with Ok a => f a | Raise e => Raise e end.
Global Instance result_fmap : FMap result := λ A B f m,
  match m with Ok a => Ok (f a) | Raise e => Raise e end.

(** [try: body / except <classes> as e: handler e]. *)
Definition try_except {A} (body : result A) (caught : exn → bool)
    (handler : exn → result A) : result A :=
  match body with
  | Ok a => Ok a
  | Raise e => if caught e then handler e else Raise e
  end.

(** A computation over a store [S]: it returns or raises, and leaves a
    store behind in both cases. *)
Definition state (S A : Type) : Type := S → result A * S.

Global Instance state_ret {S} : MRet (state S) := λ A a s, (Ok a, s).
Global Instance state_bind {S} : MBind (state S) := λ A B f m s,
  match m s with
  | (Ok a, s') => f a s'
  | (Raise e, s') => (Raise e, s')
  end.

(** A computation that does not touch the store. *)
Definition lift {S A} (r : result A) : state S A := λ s, (r, s).

(** ** [str.encode("utf-8")]

    Surrogate code points (U+D800..U+DFFF) have no UTF-8 encoding: Python
    raises [UnicodeEncodeError] at the first one. *)

Definition is_surrogate (c : N) : bool := ((0xD800 <=? c) && (c <=? 0xDFFF))%N.

Definition utf8_char (c : N) : option (list Z) :=
  let z := Z.of_N c in
  if (c <? 0x80)%N then Some [z]
  else if (c <? 0x800)%N then
    Some [Z.lor 0xC0 (Z.shiftr z 6); Z.lor 0x80 (Z.land z 0x3F)]
  else if (c <? 0x10000)%N then
    if is_surrogate c then None
    else Some [Z.lor 0xE0 (Z.shiftr z 12);
               Z.lor 0x80 (Z.land (Z.shiftr z 6) 0x3F);
               Z.lor 0x80 (Z.land z 0x3F)]
  else if (c <? 0x110000)%N then
    Some [Z.lor 0xF0 (Z.shiftr z 18);
          Z.lor 0x80 (Z.land (Z.shiftr z 12) 0x3F);
          Z.lor 0x80 (Z.land (Z.shiftr z 6) 0x3F);
          Z.lor 0x80 (Z.land z 0x3F)]
  else None.

Fixpoint encode_from (pos : nat) (s : str) : result (list Z) :=
  match s with
  | [] => Ok []
  | c :: s' =>
      match utf8_char c with
      | Some bs => (λ rest, bs ++ rest) <$> encode_from (S pos) s'
      | None => Raise (UnicodeEncodeError pos c)
      end
  end.

Definition encode_utf8 (s : str) : result (list Z) := encode_from 0 s.

Definition utf8_encodable (s : str) : Prop :=
  Forall (λ c, is_Some (utf8_char c)) s.

(** ** [hashlib.sha256] (FIPS 180-4), on 32-bit words held in [Z] *)

Module hashlib.

Definition mask32 : Z := 0xffffffff.
Definition add32 (a b : Z) : Z := Z.land (a + b) mask32.
Definition rotr (n x : Z) : Z :=
  Z.lor (Z.shiftr x n) (Z.land (Z.shiftl x (32 - n)) mask32).
Definition not32 (x : Z) : Z := Z.lxor x mask32.

Definition Ch (x y z : Z) : Z := Z.lxor (Z.land x y) (Z.land (not32 x) z).
Definition Maj (x y z : Z) : Z :=
  Z.lxor (Z.lxor (Z.land x y) (Z.land x z)) (Z.land y z).
Definition Sigma0 (x : Z) : Z := Z.lxor (Z.lxor (rotr 2 x) (rotr 13 x)) (rotr 22 x).
Definition Sigma1 (x : Z) : Z := Z.lxor (Z.lxor (rotr 6 x) (rotr 11 x)) (rotr 25 x).
Definition sigma0 (x : Z) : Z := Z.lxor (Z.lxor (rotr 7 x) (rotr 18 x)) (Z.shiftr x 3).
Definition sigma1 (x : Z) : Z := Z.lxor (Z.lxor (rotr 17 x) (rotr 19 x)) (Z.shiftr x 10).

(** The constants are fractional parts of roots of the first primes: the
    first 32 bits of the cube roots for the 64 round constants, of the
    square roots for the 8 initial hash values. *)
Definition primes : list Z :=
  [2; 3; 5; 7; 11; 13; 17; 19; 23; 29; 31; 37; 41; 43; 47; 53; 59; 61; 67; 71;
   73; 79; 83; 89; 97; 101; 103; 107; 109; 113; 127; 131; 137; 139; 149; 151;
   157; 163; 167; 173; 179; 181; 191; 193; 197; 199; 211; 223; 227; 229; 233;
   239; 241; 251; 257; 263; 269; 271; 277; 281; 283; 293; 307; 311].

(** the integer cube root of [x < 2 ^ (3 * bits)], bit by bit *)
Fixpoint cbrt_bits (bits : nat) (x r : Z) : Z :=
  match bits with
  | O => r
  | S bits' =>
      let r' := r + 2 ^ Z.of_nat bits' in
      cbrt_bits bits' x (if r' * r' * r' <=? x then r' else r)
  end.

Definition K : list Z :=
  (λ p, Z.land (cbrt_bits 36 (p * 2 ^ 96) 0) mask32) <$> primes.

Record words8 : Type := W8 { wa : Z; wb : Z; wc : Z; wd : Z;
                             we : Z; wf : Z; wg : Z; wh : Z }.

Definition root_bits (p : Z) : Z := Z.land (Z.sqrt (p * 2 ^ 64)) mask32.

Definition H0 : words8 :=
  W8 (root_bits 2) (root_bits 3) (root_bits 5) (root_bits 7)
     (root_bits 11) (root_bits 13) (root_bits 17) (root_bits 19).

(** Padding: a 1 bit, zeros up to 56 mod 64 bytes, the bit length on
    eight bytes. *)
Definition be_bytes (n : nat) (x : Z) : list Z :=
  (λ i, Z.land (Z.shiftr x (8 * Z.of_nat i)) 0xff) <$> rev (seq 0 n).

Definition pad (msg : list Z) : list Z :=
  let len := Z.of_nat (length msg) in
  msg ++ [0x80] ++ replicate (Z.to_nat ((55 - len) mod 64)) 0
      ++ be_bytes 8 (8 * len).

Definition word_of (b0 b1 b2 b3 : Z) : Z :=
  Z.lor (Z.lor (Z.shiftl b0 24) (Z.shiftl b1 16)) (Z.lor (Z.shiftl b2 8) b3).

Fixpoint words (fuel : nat) (bs : list Z) : list Z :=
  match fuel, bs with
  | S fuel', b0 :: b1 :: b2 :: b3 :: rest =>
      word_of b0 b1 b2 b3 :: words fuel' rest
  | _, _ => []
  end.

(** The message schedule, latest word first. *)
Fixpoint schedule (n : nat) (w : list Z) : list Z :=
  match n with
  | O => w
  | S n' =>
      let next :=
        add32 (add32 (sigma1 (nth 1 w 0)) (nth 6 w 0))
              (add32 (sigma0 (nth 14 w 0)) (nth 15 w 0)) in
      schedule n' (next :: w)
  end.

Definition round (s : words8) (kw : Z * Z) : words8 :=
  let '(W8 a b c d e f g h) := s in
  let t1 := add32 (add32 (add32 h (Sigma1 e)) (add32 (Ch e f g) kw.1)) kw.2 in
  let t2 := add32 (Sigma0 a) (Maj a b c) in
  W8 (add32 t1 t2) a b c (add32 d t1) e f g.

Definition compress (s : words8) (block : list Z) : words8 :=
  let w := rev (schedule 48 (rev (words 16 block))) in
  let '(W8 a b c d e f g h) := foldl round s (zip K w) in
  W8 (add32 (wa s) a) (add32 (wb s) b) (add32 (wc s) c) (add32 (wd s) d)
     (add32 (we s) e) (add32 (wf s) f) (add32 (wg s) g) (add32 (wh s) h).

Fixpoint blocks (fuel : nat) (s : words8) (bs : list Z) : words8 :=
  match fuel, bs with
  | S fuel', _ :: _ => blocks fuel' (compress s (take 64 bs)) (drop 64 bs)
  | _, _ => s
  end.

(** [hashlib.sha256(data).digest()]: 32 bytes. *)
Definition sha256 (data : list Z) : list Z :=
  let padded := pad data in
  let '(W8 a b c d e f g h) := blocks (length padded) H0 padded in
  be_bytes 4 a ++ be_bytes 4 b ++ be_bytes 4 c ++ be_bytes 4 d ++
  be_bytes 4 e ++ be_bytes 4 f ++ be_bytes 4 g ++ be_bytes 4 h.

Definition hex_digit (d : Z) : N :=
  if d <? 10 then Z.to_N (48 + d) else Z.to_N (87 + d).

(** [.hexdigest()]: two lower-case hexadecimal digits per byte. *)
Definition hexdigest (digest : list Z) : str :=
  digest ≫= λ b, [hex_digit (Z.shiftr b 4); hex_digit (Z.land b 0xf)].

End hashlib.

(** [int(s, 16)] on a string of hexadecimal digits; any other character,
    and the empty string, raise [ValueError]. (Signs, the [0x] prefix and
    underscores are not modelled: a hex digest has none.) *)
Definition hex_value (c : N) : option Z :=
  let z := Z.of_N c in
  if (48 <=? z) && (z <=? 57) then Some (z - 48)
  else if (97 <=? z) && (z <=? 102) then Some (z - 87)
  else if (65 <=? z) && (z <=? 70) then Some (z - 55)
  else None.

Fixpoint int16_from (acc : Z) (s : str) : result Z :=
  match s with
  | [] => Ok acc
  | c :: s' =>
      match hex_value c with
      | Some d => int16_from (16 * acc + d) s'
      | None => Raise (ValueError (py "invalid literal for int() with base 16"))
      end
  end.

Definition int16 (s : str) : result Z :=
  match s with
  | [] => Raise (ValueError (py "invalid literal for int() with base 16"))
  | _ => int16_from 0 s
  end.

(** ** [numpy.random]

    The legacy global generator: [np.random.seed(s)] installs a state that
    depends on [s] alone, and every draw advances the state.  The generator
    and the type of its samples are numpy's; the model takes them as an
    interface. *)

Class NumpyRandom : Type := {
  float64 : Type;
  RandomState : Type;
  (** the state [np.random.seed(s)] installs *)
  seeded : Z → RandomState;
  (** one sample of the standard normal distribution *)
  standard_normal : RandomState → float64 * RandomState
}.

Module np_random.
Section np_random.
Context `{NumpyRandom}.

Fixpoint draws (n : nat) (g : RandomState) : list float64 * RandomState :=
  match n with
  | O => ([], g)
  | S n' =>
      let '(x, g1) := standard_normal g in
      let '(xs, g2) := draws n' g1 in
      (x :: xs, g2)
  end.

(** [np.random.seed(seed)]: the seed must lie between 0 and 2**32 - 1. *)
Definition seed (s : Z) : state RandomState () := λ g,
  if bool_decide (0 ≤ s < 2 ^ 32) then (Ok (), seeded s)
  else (Raise (ValueError (py "Seed must be between 0 and 2**32 - 1")), g).

(** [list(np.random.normal(size=size))]: [size] samples, in order.  The
    memory that the array takes and the platform's bound on the dimensions
    of an array are not modelled. *)
Definition normal (size : Z) : state RandomState (list float64) := λ g,
  if bool_decide (size < 0)
  then (Raise (ValueError (py "negative dimensions are not allowed")), g)
  else let '(xs, g') := draws (Z.to_nat size) g in (Ok xs, g').
End np_random.
End np_random.

(** ** [class FakeEmbeddings] *)

Module FakeEmbeddings.
Record t : Type := new { size : Z }.

Section methods.
Context `{NumpyRandom}.

Definition _get_embedding (self : t) : state RandomState (list float64) :=
  np_random.normal (size self).

Definition embed_documents (self : t) (texts : list str)
    : state RandomState (list (list float64)) :=
  mapM (λ _, _get_embedding self) texts.

Definition embed_query (self : t) (text : str)
    : state RandomState (list float64) :=
  _get_embedding self.
End methods.
End FakeEmbeddings.

(** ** [class DeterministicFakeEmbedding] *)

Module DeterministicFakeEmbedding.
Record t : Type := new { size : Z }.

(** [int(hashlib.sha256(text.encode("utf-8")).hexdigest(), 16) % 10**8] *)
Definition _get_seed (self : t) (text : str) : result Z :=
  data ← encode_utf8 text;
  n ← int16 (hashlib.hexdigest (hashlib.sha256 data));
  Ok (n mod 10 ^ 8).

Section methods.
Context `{NumpyRandom}.

Definition _get_embedding (self : t) (seed : Z)
    : state RandomState (list float64) :=
  _ ← np_random.seed seed;
  np_random.normal (size self).

Definition embed_documents (self : t) (texts : list str)
    : state RandomState (list (list float64)) :=
  mapM (λ text, seed ← lift (_get_seed self text);
                _get_embedding self seed) texts.

Definition embed_query (self : t) (text : str)
    : state RandomState (list float64) :=
  seed ← lift (_get_seed self text);
  _get_embedding self seed.
End methods.
End DeterministicFakeEmbedding.

(** A small generator to run the model on examples: a linear congruential
    sequence of integers stands in for numpy's Mersenne Twister and its
    floating-point samples. *)
Definition lcg_random : NumpyRandom := {|
  float64 := Z;
  RandomState := Z;
  seeded := λ s, s;
  standard_normal := λ g,
    let g' := (1103515245 * g + 12345) mod 2 ^ 31 in (g', g')
|}.

(** ** JSON values

    What [json.loads] returns and [json.dumps] accepts: [None], [bool],
    [int], [str], [list] and [dict] (keys in insertion order).
    Floating-point numbers are outside the model. *)

Inductive json : Type :=
  | JNull
  | JBool (b : bool)
  | JInt (n : Z)
  | JStr (s : str)
  | JList (items : list json)
  | JDict (items : list (str * json)).

Abbreviation dict := (list (str * json)).

(** [d.get(k)], [k in d], [d[k] = v], [del d[k]] on a dict value. *)
Fixpoint dict_get (k : str) (d : dict) : option json :=
  match d with
  | [] => None
  | (k', v) :: d' => if decide (k' = k) then Some v else dict_get k d'
  end.

Definition dict_contains (k : str) (d : dict) : bool :=
  bool_decide (is_Some (dict_get k d)).

Fixpoint dict_setitem (k : str) (v : json) (d : dict) : dict :=
  match d with
  | [] => [(k, v)]
  | (k', v') :: d' =>
      if decide (k' = k) then (k', v) :: d' else (k', v') :: dict_setitem k v d'
  end.

Fixpoint dict_remove (k : str) (d : dict) : dict :=
  match d with
  | [] => []
  | (k', v) :: d' => if decide (k' = k) then d' else (k', v) :: dict_remove k d'
  end.

Definition dict_delitem (k : str) (d : dict) : result dict :=
  if dict_contains k d then Ok (dict_remove k d) else Raise (KeyError k).

(** ** [json.dumps] with its default arguments
    ([ensure_ascii=True], separators [", "] and [": "]) *)

Module json_encoder.

Definition hex4 (n : N) : str :=
  let z := Z.of_N n in
  [hashlib.hex_digit (Z.land (Z.shiftr z 12) 0xf);
   hashlib.hex_digit (Z.land (Z.shiftr z 8) 0xf);
   hashlib.hex_digit (Z.land (Z.shiftr z 4) 0xf);
   hashlib.hex_digit (Z.land z 0xf)].

(** [ESCAPE_ASCII]: the backslash, the double quote and every character
    outside [' '..'~'] are escaped. *)
Definition escape_char (c : N) : str :=
  (if c =? 34 then py "\" ++ [34]
   else if c =? 92 then py "\\"
   else if c =? 10 then py "\n"
   else if c =? 13 then py "\r"
   else if c =? 9 then py "\t"
   else if c =? 12 then py "\f"
   else if c =? 8 then py "\b"
   else if (c <? 32) || (126 <? c) then
     if c <? 0x10000 then py "\u" ++ hex4 c
     else
       let n := c - 0x10000 in
       py "\u" ++ hex4 (N.lor 0xd800 (N.land (N.shiftr n 10) 0x3ff)) ++
       py "\u" ++ hex4 (N.lor 0xdc00 (N.land n 0x3ff))
   else [c])%N.

Definition encode_basestring_ascii (s : str) : str :=
  [34%N] ++ (s ≫= escape_char) ++ [34%N].

Fixpoint uint_digits (u : Decimal.uint) : str :=
  match u with
  | Decimal.Nil => []
  | Decimal.D0 u => 48%N :: uint_digits u
  | Decimal.D1 u => 49%N :: uint_digits u
  | Decimal.D2 u => 50%N :: uint_digits u
  | Decimal.D3 u => 51%N :: uint_digits u
  | Decimal.D4 u => 52%N :: uint_digits u
  | Decimal.D5 u => 53%N :: uint_digits u
  | Decimal.D6 u => 54%N :: uint_digits u
  | Decimal.D7 u => 55%N :: uint_digits u
  | Decimal.D8 u => 56%N :: uint_digits u
  | Decimal.D9 u => 57%N :: uint_digits u
  end.

(** [int.__repr__] *)
Definition repr_int (z : Z) : str :=
  match Z.to_int z with
  | Decimal.Pos u => uint_digits u
  | Decimal.Neg u => 45%N :: uint_digits u
  end.

(** [sep.join(parts)] *)
Fixpoint join (sep : str) (parts : list str) : str :=
  match parts with
  | [] => []
  | [p] => p
  | p :: ps => p ++ sep ++ join sep ps
  end.

Fixpoint dumps (j : json) : str :=
  match j with
  | JNull => py "null"
  | JBool true => py "true"
  | JBool false => py "false"
  | JInt n => repr_int n
  | JStr s => encode_basestring_ascii s
  | JList items =>
      py "[" ++ join (py ", ") (dumps <$> items) ++ py "]"
  | JDict items =>
      py "{" ++
      join (py ", ")
        ((λ kv, encode_basestring_ascii kv.1 ++ py ": " ++ dumps kv.2)
           <$> items) ++
      py "}"
  end.

End json_encoder.

(** ** [str.format] with keyword arguments

    [{{] and [}}] stand for a brace; [{name}] is replaced by the argument
    called [name].  Conversions and format specifications are not
    modelled: the one template of this module has none. *)

Fixpoint format_from (tmpl : str) (field : option str)
    (kwargs : list (str * str)) : result str :=
  match field, tmpl with
  | None, [] => Ok []
  | None, 123%N :: 123%N :: rest =>
      (λ r, 123%N :: r) <$> format_from rest None kwargs
  | None, 123%N :: rest => format_from rest (Some []) kwargs
  | None, 125%N :: 125%N :: rest =>
      (λ r, 125%N :: r) <$> format_from rest None kwargs
  | None, 125%N :: _ =>
      Raise (ValueError (py "Single '}' encountered in format string"))
  | None, c :: rest => (λ r, c :: r) <$> format_from rest None kwargs
  | Some _, [] => Raise (ValueError (py "expected '}' before end of string"))
  | Some name, 125%N :: rest =>
      match list_find (λ kv, kv.1 = rev name) kwargs with
      | Some (_, kv) => (λ r, kv.2 ++ r) <$> format_from rest None kwargs
      | None => Raise (KeyError (rev name))
      end
  | Some name, c :: rest => format_from rest (Some (c :: name)) kwargs
  end.

Definition format (tmpl : str) (kwargs : list (str * str)) : result str :=
  format_from tmpl None kwargs.

(** ** The heap of dict objects

    A dict that the program mutates lives in the heap and is known by its
    address; two names for one address are aliases.  The values stored under
    the keys are never written by this program and are kept as [json]
    values. *)

Abbreviation heap := (list dict).
Abbreviation ref := nat.

Module Heap.

(** a fresh dict object *)
Definition alloc (d : dict) : state heap ref := λ h, (Ok (length h), h ++ [d]).

(** reading through a reference; every reference the program holds is
    live, a dangling one is an interpreter fault *)
Definition load (r : ref) : state heap dict := λ h,
  match h !! r with
  | Some d => (Ok d, h)
  | None => (Raise (SystemError (py "dangling reference")), h)
  end.

Definition store (r : ref) (d : dict) : state heap () := λ h,
  (Ok (), <[r := d]> h).

(** [k in r] *)
Definition contains (r : ref) (k : str) : state heap bool :=
  d ← load r; mret (dict_contains k d).

(** [del r[k]] *)
Definition delitem (r : ref) (k : str) : state heap () :=
  d ← load r; d' ← lift (dict_delitem k d); store r d'.

(** [{k: v for k, v in items}] *)
Definition comprehension (items : list (str * json)) : state heap ref :=
  alloc (foldl (λ d kv, dict_setitem kv.1 kv.2 d) [] items).

(** [json.dumps(r)] *)
Definition dumps (r : ref) : state heap str :=
  d ← load r; mret (json_encoder.dumps (JDict d)).

End Heap.

(** ** pydantic model classes

    pydantic is a library the parser calls; a model class is known here by
    what the parser uses of it.  [model_validate] (pydantic 2) and
    [parse_obj] (pydantic 1, kept by pydantic 2 as an alias) are the two
    names of the class's validation: it returns an instance or raises
    [ValidationError] (the two generations of pydantic each have their own
    [ValidationError] class; every handler of the parser catches the one
    that the validation it guards can raise, and both are [ValidationError]
    here). *)

Inductive base_model : Type :=
  | PydanticV2    (* a subclass of pydantic.BaseModel, pydantic 2 *)
  | PydanticV1    (* a subclass of pydantic.v1.BaseModel *)
  | NotPydantic.  (* any other class *)

Global Instance base_model_eq_dec : EqDecision base_model :=
  ltac:(solve_decision).

Record ModelClass (T : Type) : Type := {
  base : base_model;
  (** [cls.__name__] *)
  __name__ : str;
  (** [cls.__class__], as an f-string prints it *)
  __class__ : str;
  (** validation of a decoded JSON value *)
  validate : json → result T;
  (** the dict object that [cls.schema()] returns; pydantic keeps it in a
      cache on the class *)
  schema_ref : ref;
  (** [instance.json()] *)
  model_dump_json : T → str
}.
Arguments base {T}.
Arguments __name__ {T}.
Arguments __class__ {T}.
Arguments validate {T}.
Arguments schema_ref {T}.
Arguments model_dump_json {T}.

Definition model_validate {T} (cls : ModelClass T) : json → result T :=
  validate cls.
Definition parse_obj {T} (cls : ModelClass T) : json → result T :=
  validate cls.
Definition schema {T} (cls : ModelClass T) : state heap ref :=
  mret (schema_ref cls).

Definition issubclass_BaseModel {T} (cls : ModelClass T) : bool :=
  bool_decide (base cls = PydanticV2).
Definition issubclass_v1_BaseModel {T} (cls : ModelClass T) : bool :=
  bool_decide (base cls = PydanticV1).

Definition is_ValidationError (e : exn) : bool :=
  match e with ValidationError _ => true | _ => false end.
Definition is_JSONDecodeError (e : exn) : bool :=
  match e with JSONDecodeError _ _ => true | _ => false end.

(** [str(e)] *)
Definition exn_str (e : exn) : str :=
  match e with
  | IndexError => py "list index out of range"
  | RecursionError => py "maximum recursion depth exceeded"
  | AttributeError msg | SystemError msg | ValueError msg
  | ValidationError msg
  | JSONDecodeError msg _ | OutputParserException msg _ _ => msg
  | KeyError k => json_encoder.encode_basestring_ascii k
  | UnicodeEncodeError _ _ => py "'utf-8' codec can't encode character: surrogates not allowed"
  end.

(** ** [langchain_core.outputs.Generation] *)

Record Generation : Type := { text : str }.

(** ** JSON decoding

    The decoder that the parent class calls: the strict decoding of a text
    ([json.loads]: the value, or [JSONDecodeError]), and the best-effort
    decoding of a truncated one.  The properties of the parser hold for
    every decoder; [reference_decoder] below is one to compute with. *)

Class JsonDecoder : Type := {
  json_loads : str → result json;
  parse_partial_json : str → result json
}.

(** ** [class JsonOutputParser], the parent class *)

Module JsonOutputParser.
Section methods.
Context `{JsonDecoder}.

(** Modelled from the spec: [JsonOutputParser.parse_result], which is not
    among the sources.  The first generation is used; its text is decoded
    as JSON (best effort when [partial] is set); a decode failure becomes
    a parse failure that carries the original text and the underlying
    decode error. *)
Definition parse_result (result_ : list Generation) (partial : bool)
    : result json :=
  match result_ with
  | [] => Raise IndexError
  | generation :: _ =>
      let text := text generation in
      try_except
        (if partial then parse_partial_json text else json_loads text)
        is_JSONDecodeError
        (λ e, Raise (OutputParserException
                       (py "Invalid json output: " ++ text)
                       (Some text) (Some e)))
  end.

(** Modelled from the spec: [JsonOutputParser.parse], which is not among
    the sources.  A raw text goes through the same steps as a list of
    generations: it is [self.parse_result] on the one generation made of
    the text, [self] being the object the method was called on. *)
Definition parse {A} (self_parse_result : list Generation → bool → result A)
    (text : str) : result A :=
  self_parse_result [{| text := text |}] false.
End methods.
End JsonOutputParser.

(** ** [class PydanticOutputParser] *)

(** The double quote cannot be written inside a literal of this file: in
    the template below each ['] stands for one, and [quoted] puts them
    back.  The template itself has no [']. *)
Definition quoted (s : str) : str :=
  (λ c, if (c =? 39)%N then 34%N else c) <$> s.

Definition _PYDANTIC_FORMAT_INSTRUCTIONS : str :=
  quoted (json_encoder.join [10%N]
    [py "The output should be formatted as a JSON instance that conforms to the JSON schema below.";
     py "";
     py "As an example, for the schema {{'properties': {{'foo': {{'title': 'Foo', 'description': 'a list of strings', 'type': 'array', 'items': {{'type': 'string'}}}}}}, 'required': ['foo']}}";
     py "the object {{'foo': ['bar', 'baz']}} is a well-formatted instance of the schema. The object {{'properties': {{'foo': ['bar', 'baz']}}}} is not well-formatted.";
     py "";
     py "Here is the output schema:";
     py "```";
     py "{schema}";
     py "```"]).

Module PydanticOutputParser.

Record t (T : Type) : Type := new { pydantic_object : ModelClass T }.
Arguments new {T}.
Arguments pydantic_object {T}.

Section methods.
Context `{JsonDecoder} {T : Type}.
  (** [langchain_core.utils.pydantic.PYDANTIC_MAJOR_VERSION]: the major
      version of the installed pydantic *)
Variable PYDANTIC_MAJOR_VERSION : Z.

Definition _parser_exception (self : t T) (e : exn) (json_object : json)
    : exn :=
  let json_string := json_encoder.dumps json_object in
  let name := __name__ (pydantic_object self) in
  let msg := py "Failed to parse " ++ name ++ py " from completion " ++
             json_string ++ py ". Got: " ++ exn_str e in
  OutputParserException msg (Some json_string) None.

Definition _parse_obj (self : t T) (obj : json) : result T :=
  if bool_decide (PYDANTIC_MAJOR_VERSION = 2) then
    try_except
      (if issubclass_BaseModel (pydantic_object self) then
         model_validate (pydantic_object self) obj
       else if issubclass_v1_BaseModel (pydantic_object self) then
         parse_obj (pydantic_object self) obj
       else
         Raise (OutputParserException
                  (py "Unsupported model version for PydanticOutputParser: " ++
                   py "                            " ++
                   __class__ (pydantic_object self))
                  None None))
      is_ValidationError
      (λ e, Raise (_parser_exception self e obj))
  else (* pydantic v1 *)
    try_except
      (parse_obj (pydantic_object self) obj)
      is_ValidationError
      (λ e, Raise (_parser_exception self e obj)).

(** [super().parse_result(result)] is called without [partial], which
    then takes its default, [False]. *)
Definition parse_result (self : t T) (result_ : list Generation)
    (partial : bool) : result T :=
  json_object ← JsonOutputParser.parse_result result_ false;
  _parse_obj self json_object.

(** [super().parse(text)] *)
Definition parse (self : t T) (text : str) : result T :=
  JsonOutputParser.parse (parse_result self) text.

Definition get_format_instructions (self : t T) : state heap str :=
  (* Copy schema to avoid altering original Pydantic schema. *)
  original ← schema (pydantic_object self);
  items ← Heap.load original;
  schema ← Heap.comprehension items;
  (* Remove extraneous fields. *)
  let reduced_schema := schema in
  has_title ← Heap.contains reduced_schema (py "title");
  _ ← (if has_title : bool then Heap.delitem reduced_schema (py "title")
       else mret ());
  has_type ← Heap.contains reduced_schema (py "type");
  _ ← (if has_type : bool then Heap.delitem reduced_schema (py "type")
       else mret ());
  (* Ensure json in context is well-formed with double quotes. *)
  schema_str ← Heap.dumps reduced_schema;
  lift (format _PYDANTIC_FORMAT_INSTRUCTIONS [(py "schema", schema_str)]).

Definition _type (self : t T) : str := py "pydantic".

Definition OutputType (self : t T) : ModelClass T := pydantic_object self.
End methods.
End PydanticOutputParser.

(** ** A reference decoder

    [json.loads] for the JSON texts whose numbers are integers, used to
    run the parser on examples.  A number with a fraction or an exponent,
    [NaN] and [Infinity] are floats, which [json] does not hold: the
    decoder answers [ValueError] for them. *)

Module json_decoder.

Local Open Scope N_scope.

Definition is_ws (c : N) : bool :=
  (c =? 32) || (c =? 9) || (c =? 10) || (c =? 13).
Definition is_digit (c : N) : bool := (48 <=? c) && (c <=? 57).

Fixpoint skip_ws (s : str) : str :=
  match s with
  | c :: s' => if is_ws c then skip_ws s' else s
  | [] => []
  end.

Fixpoint digits (acc : Z) (s : str) : Z * str :=
  match s with
  | c :: s' =>
      if is_digit c then digits (10 * acc + (Z.of_N c - 48))%Z s' else (acc, s)
  | [] => (acc, [])
  end.

Definition not_modelled : exn := ValueError (py "float: outside the model").

Section decoder.
  (** the length of the whole text, from which positions are counted *)
Variable n : nat.

Definition fail {A} (msg : string) (rest : str) : result A :=
  Raise (JSONDecodeError (py msg) (n - length rest)).

Definition starts_float (s : str) : bool :=
  match s with
  | c :: d :: s' =>
      ((c =? 46) && is_digit d)
      || (((c =? 101) || (c =? 69))
          && (is_digit d
              || (((d =? 43) || (d =? 45))
                  && match s' with e :: _ => is_digit e | [] => false end)))
  | _ => false
  end.

(** an optional [-], then [0] or a number that starts with [1]..[9] *)
Definition number (s : str) : result (json * str) :=
  let '(sign, s1) :=
    match s with
    | c :: s' => if c =? 45 then ((-1)%Z, s') else (1%Z, s)
    | [] => (1%Z, s)
    end in
  match s1 with
  | c :: s2 =>
      if c =? 48 then
        if starts_float s2 then Raise not_modelled else Ok (JInt 0, s2)
      else if is_digit c then
        let '(v, s3) := digits 0 s1 in
        if starts_float s3 then Raise not_modelled else Ok (JInt (sign * v), s3)
      else fail "Expecting value" s
  | [] => fail "Expecting value" s
  end.

Definition hex4 (s : str) : option (N * str) :=
  match s with
  | a :: b :: c :: d :: s' =>
      match hex_value a, hex_value b, hex_value c, hex_value d with
      | Some a, Some b, Some c, Some d =>
          Some (Z.to_N (((a * 16 + b) * 16 + c) * 16 + d), s')
      | _, _, _, _ => None
      end
  | _ => None
  end.

(** the characters of a string, up to its closing quote; [start] is the
    text from the opening quote.  As in CPython, a [\u] escape needs a
    character after its four digits, and a high surrogate escape is joined
    with the low surrogate escape that follows it only when a character
    comes after the two. *)
Fixpoint scanstring (fuel : nat) (start s : str) (acc : str)
    : result (str * str) :=
  match fuel with
  | O => Raise RecursionError
  | S fuel' =>
    match s with
    | [] => fail "Unterminated string starting at" start
    | c :: r =>
      if c =? 34 then Ok (rev acc, r)
      else if c =? 92 then
        match r with
        | [] => fail "Unterminated string starting at" start
        | e :: r' =>
          if e =? 117 then
            match hex4 r' with
            | None => fail "Invalid \uXXXX escape" r
            | Some (_, []) => fail "Invalid \uXXXX escape" r
            | Some (uni, (b :: r2) as r1) =>
              if (0xd800 <=? uni) && (uni <=? 0xdbff)
                 && (b =? 92) && bool_decide (head r2 = Some 117)
                 && bool_decide (6 < length r1)%nat
              then
                match hex4 (tail r2) with
                | None => fail "Invalid \uXXXX escape" r2
                | Some (uni2, r3) =>
                  if (0xdc00 <=? uni2) && (uni2 <=? 0xdfff) then
                    scanstring fuel' start r3
                      (0x10000 + N.lor (N.shiftl (uni - 0xd800) 10)
                                       (uni2 - 0xdc00) :: acc)
                  else scanstring fuel' start r1 (uni :: acc)
                end
              else scanstring fuel' start r1 (uni :: acc)
            end
          else if e =? 34 then scanstring fuel' start r' (34 :: acc)
          else if e =? 92 then scanstring fuel' start r' (92 :: acc)
          else if e =? 47 then scanstring fuel' start r' (47 :: acc)
          else if e =? 98 then scanstring fuel' start r' (8 :: acc)
          else if e =? 102 then scanstring fuel' start r' (12 :: acc)
          else if e =? 110 then scanstring fuel' start r' (10 :: acc)
          else if e =? 114 then scanstring fuel' start r' (13 :: acc)
          else if e =? 116 then scanstring fuel' start r' (9 :: acc)
          else fail "Invalid \escape" s
        end
      else if c <? 32 then fail "Invalid control character at" s
      else scanstring fuel' start r (c :: acc)
    end
  end.

Definition literal (word : string) (v : json) (s : str)
    : option (result (json * str)) :=
  let w := py word in
  if decide (take (length w) s = w) then Some (Ok (v, drop (length w) s))
  else None.

Definition float_literal (word : string) (s : str)
    : option (result (json * str)) :=
  let w := py word in
  if decide (take (length w) s = w) then Some (Raise not_modelled) else None.

(** one JSON value at the head of [s], and the text after it *)
Fixpoint value (fuel : nat) (s : str) : result (json * str) :=
  match fuel with
  | O => Raise RecursionError
  | S fuel' =>
    match s with
    | [] => fail "Expecting value" s
    | c :: r =>
      if c =? 34 then
        '(k, r') ← scanstring (S (length r)) s r []; Ok (JStr k, r')
      else if c =? 123 then
        match skip_ws r with
        | c1 :: r1 =>
            if c1 =? 125 then Ok (JDict [], r1)
            else members fuel' [] (skip_ws r)
        | [] => members fuel' [] []
        end
      else if c =? 91 then
        match skip_ws r with
        | c1 :: r1 =>
            if c1 =? 93 then Ok (JList [], r1)
            else elements fuel' [] (skip_ws r)
        | [] => elements fuel' [] []
        end
      else
        default (number s)
          (literal "null" JNull s
             ∪ literal "true" (JBool true) s
             ∪ literal "false" (JBool false) s
             ∪ float_literal "NaN" s
             ∪ float_literal "Infinity" s
             ∪ float_literal "-Infinity" s)
    end
  end
(** the pairs of an object, from the opening quote of a key on; a key
    that comes again keeps its place and takes the later value *)
with members (fuel : nat) (acc : dict) (s : str) : result (json * str) :=
  match fuel with
  | O => Raise RecursionError
  | S fuel' =>
    match s with
    | c :: r =>
      if c =? 34 then
        '(k, r1) ← scanstring (S (length r)) s r [];
        match skip_ws r1 with
        | c2 :: r2 =>
          if c2 =? 58 then
            '(v, r3) ← value fuel' (skip_ws r2);
            let acc' := dict_setitem k v acc in
            match skip_ws r3 with
            | c4 :: r4 =>
              if c4 =? 125 then Ok (JDict acc', r4)
              else if c4 =? 44 then members fuel' acc' (skip_ws r4)
              else fail "Expecting ',' delimiter" (skip_ws r3)
            | [] => fail "Expecting ',' delimiter" []
            end
          else fail "Expecting ':' delimiter" (skip_ws r1)
        | [] => fail "Expecting ':' delimiter" []
        end
      else fail "Expecting property name enclosed in double quotes" s
    | [] => fail "Expecting property name enclosed in double quotes" s
    end
  end
(** the items of an array *)
with elements (fuel : nat) (acc : list json) (s : str)
    : result (json * str) :=
  match fuel with
  | O => Raise RecursionError
  | S fuel' =>
    '(v, r1) ← value fuel' s;
    match skip_ws r1 with
    | c :: r2 =>
      if c =? 93 then Ok (JList (rev (v :: acc)), r2)
      else if c =? 44 then elements fuel' (v :: acc) (skip_ws r2)
      else fail "Expecting ',' delimiter" (skip_ws r1)
    | [] => fail "Expecting ',' delimiter" []
    end
  end.
End decoder.

(** [json.loads(s)] *)
Definition loads (s : str) : result json :=
  let n := length s in
  '(v, rest) ← value n (2 * n + 2) (skip_ws s);
  match skip_ws rest with
  | [] => Ok v
  | _ => fail n "Extra data" (skip_ws rest)
  end.

(** Modelled from the spec: the best-effort decoding of partial mode,
    whose code is not among the sources.  It keeps what was decoded so far
    of a truncated text: the string and the brackets that are open are
    closed, and characters are dropped from the end until the text
    decodes. *)
Fixpoint closers (s : str) (in_string escaped : bool) (stack : str)
    : option str :=
  match s with
  | [] => Some ((if in_string then [34] else []) ++ stack)
  | c :: r =>
    if in_string then
      if (c =? 34) && negb escaped then closers r false false stack
      else if c =? 92 then closers r true (negb escaped) stack
      else closers r true false stack
    else if c =? 34 then closers r true false stack
    else if c =? 123 then closers r false false (125 :: stack)
    else if c =? 91 then closers r false false (93 :: stack)
    else if (c =? 125) || (c =? 93) then
      match stack with
      | top :: stack' =>
          if top =? c then closers r false false stack' else None
      | [] => None
      end
    else closers r false false stack
  end.

Fixpoint retry (k : nat) (s : str) : option json :=
  match closers (take k s) false false [] with
  | Some tail =>
      match loads (take k s ++ tail) with
      | Ok v => Some v
      | Raise _ =>
          match k with O => None | S k' => retry k' s end
      end
  | None => match k with O => None | S k' => retry k' s end
  end.

Definition loads_partial (s : str) : result json :=
  match loads s with
  | Ok v => Ok v
  | Raise e => match retry (length s) s with Some v => Ok v | None => Raise e end
  end.

End json_decoder.

Definition reference_decoder : JsonDecoder := {|
  json_loads := json_decoder.loads;
  parse_partial_json := json_decoder.loads_partial
|}.

(** A decoder that completes a truncated text even when it is not asked
    to: what the parser makes of a parent class that is lenient. *)
Definition lenient_decoder : JsonDecoder := {|
  json_loads := json_decoder.loads_partial;
  parse_partial_json := json_decoder.loads_partial
|}.

(** ** Sample classes

    [class Joke(BaseModel)] with two required fields, [setup: str] and
    [punchline: str], and a class that is no pydantic model at all. *)

Module Joke.

Record t : Type := new { setup : str; punchline : str }.

Definition field (name : string) (d : list (str * json)) : result str :=
  match dict_get (py name) d with
  | Some (JStr s) => Ok s
  | Some _ => Raise (ValidationError (py name ++ py ": str type expected"))
  | None => Raise (ValidationError (py name ++ py ": field required"))
  end.

Definition validator (obj : json) : result t :=
  match obj with
  | JDict d =>
      s ← field "setup" d;
      p ← field "punchline" d;
      Ok (new s p)
  | _ => Raise (ValidationError (py "value is not a valid dict"))
  end.

Definition to_dict (o : t) : json :=
  JDict [(py "setup", JStr (setup o)); (py "punchline", JStr (punchline o))].

Definition to_json (o : t) : str := json_encoder.dumps (to_dict o).

Definition string_field (title : string) : json :=
  JDict [(py "title", JStr (py title)); (py "type", JStr (py "string"))].

Definition schema_dict : list (str * json) :=
  [(py "title", JStr (py "Joke"));
   (py "type", JStr (py "object"));
   (py "properties",
      JDict [(py "setup", string_field "Setup");
             (py "punchline", string_field "Punchline")]);
   (py "required", JList [JStr (py "setup"); JStr (py "punchline")])].

(** the class, with its schema dict at address 0 of [heap0] *)
Definition cls : ModelClass t := {|
  base := PydanticV2;
  __name__ := py "Joke";
  __class__ := py "<class 'pydantic._internal._model_construction.ModelMetaclass'>";
  validate := validator;
  schema_ref := 0%nat;
  model_dump_json := to_json
|}.

Definition heap0 : heap := [schema_dict].

End Joke.

Module Point.

(** a plain class, [class Point: ...] *)
Definition cls : ModelClass () := {|
  base := NotPydantic;
  __name__ := py "Point";
  __class__ := py "<class 'type'>";
  validate := λ _,
    Raise (AttributeError (py "type object 'Point' has no attribute 'parse_obj'"));
  schema_ref := 0%nat;
  model_dump_json := λ _, []
|}.

End Point.

(** ** Vocabulary of the properties *)

Definition is_byte (b : Z) : Prop := 0 ≤ b < 256.

Global Instance utf8_encodable_dec s : Decision (utf8_encodable s) :=
  ltac:(unfold utf8_encodable; apply _).

(** the shape of a list of embeddings: one vector of length [size] per
    text *)
Definition embeddings_shape {A} (size : Z) (texts : list str)
    (vectors : list (list A)) : Prop :=
  length vectors = length texts
  ∧ Forall (λ v, Z.of_nat (length v) = size) vectors.

(** [embed_query] of the deterministic class as a function of the text
    alone: the samples drawn from the state that the seed of the text
    installs *)
Definition embedding_of `{NumpyRandom} (self : DeterministicFakeEmbedding.t)
    (text : str) : result (list float64) :=
  s ← DeterministicFakeEmbedding._get_seed self text;
  (np_random.normal (DeterministicFakeEmbedding.size self) (seeded s)).1.

(** [needle in haystack] *)
Definition contains (needle haystack : str) : Prop :=
  ∃ before after, haystack = before ++ needle ++ after.

(** [if k in d: del d[k]], on the dict value *)
Definition dict_discard (k : str) (d : dict) : dict :=
  if dict_contains k d then dict_remove k d else d.

(** the schema as the instructions embed it: the entries of the schema
    dict other than [title] and [type], in their order *)
Definition reduced_schema (d : dict) : dict :=
  filter (λ kv, kv.1 ≠ py "title" ∧ kv.1 ≠ py "type") d.

(** the dict that [get_format_instructions] works on: the copy of the
    schema dict, after the two deletions *)
Definition working_copy (d : dict) : dict :=
  dict_discard (py "type")
    (dict_discard (py "title")
       (foldl (λ d kv, dict_setitem kv.1 kv.2 d) [] d)).

(** the text of the instructions before and after the embedded schema *)
Definition instructions_head : str :=
  quoted (json_encoder.join [10%N]
    [py "The output should be formatted as a JSON instance that conforms to the JSON schema below.";
     py "";
     py "As an example, for the schema {'properties': {'foo': {'title': 'Foo', 'description': 'a list of strings', 'type': 'array', 'items': {'type': 'string'}}}, 'required': ['foo']}";
     py "the object {'foo': ['bar', 'baz']} is a well-formatted instance of the schema. The object {'properties': {'foo': ['bar', 'baz']}} is not well-formatted.";
     py "";
     py "Here is the output schema:";
     py "```";
     py ""]).

Definition instructions_tail : str := 10%N :: py "```".



(** *** The values that [json.loads (json.dumps v)] gives back

    [json.dumps] writes every surrogate as an escape of its own, and
    [json.loads] reads a high surrogate escape followed by a low one as a
    single code point: a string comes back unchanged when it holds code
    points of Unicode and no high surrogate directly before a low one.  A
    dict has one entry per key. *)

Definition is_high_surrogate (c : N) : bool := ((0xd800 <=? c) && (c <=? 0xdbff))%N.
Definition is_low_surrogate (c : N) : bool := ((0xdc00 <=? c) && (c <=? 0xdfff))%N.

Fixpoint wf_str (s : str) : Prop :=
  match s with
  | [] => True
  | c :: s' =>
      (c < 0x110000)%N
      ∧ (is_high_surrogate c → ∀ c', head s' = Some c' → ¬ is_low_surrogate c')
      ∧ wf_str s'
  end.

Fixpoint wf_json (j : json) : Prop :=
  match j with
  | JNull | JBool _ | JInt _ => True
  | JStr s => wf_str s
  | JList items => foldr (λ x rest, wf_json x ∧ rest) True items
  | JDict items =>
      NoDup items.*1
      ∧ foldr (λ kv rest, wf_str kv.1 ∧ wf_json kv.2 ∧ rest) True items
  end.

(** fuel that the reference decoder needs for the text of a value *)
Fixpoint fuel_for (j : json) : nat :=
  match j with
  | JList items => S (length items + foldr (λ x m, fuel_for x + m)%nat 0%nat items)
  | JDict items => S (length items + foldr (λ kv m, fuel_for kv.2 + m)%nat 0%nat items)
  | _ => 1
  end.

(** what may follow a value inside a text: nothing, or [,], []] or [}] *)
Definition delimited (rest : str) : Prop :=
  match rest with
  | [] => True
  | c :: _ => c = 44%N ∨ c = 93%N ∨ c = 125%N
  end.

(** after the escape of a high surrogate, the text does not go on with the
    escape of a low one *)
Definition no_low_escape (r1 : str) : Prop :=
  r1 ≠ []
  ∧ ∀ r2, r1 = 92%N :: 117%N :: r2 →
      ∃ uni2 r3, json_decoder.hex4 r2 = Some (uni2, r3)
                 ∧ is_low_surrogate uni2 = false.

(** the reference decoder reads [j] back from its text, given the fuel
    that [j] needs *)
Definition read_back (n : nat) (j : json) : Prop :=
  ∀ f rest,
    (fuel_for j ≤ f)%nat → delimited rest →
    json_decoder.value n f (json_encoder.dumps j ++ rest) = Ok (j, rest).

(** the text of one entry of a dict *)
Definition entry_text (kv : str * json) : str :=
  json_encoder.encode_basestring_ascii kv.1 ++ py ": " ++ json_encoder.dumps kv.2.

(** the model class requires [field]: validation rejects every dict that
    lacks it *)
Definition requires {T} (cls : ModelClass T) (field : str) : Prop :=
  ∀ d : dict,
    dict_get field d = None →
    ∃ reason, validate cls (JDict d) = Raise (ValidationError reason).

(** *** Texts and generators

    Vocabulary of the further properties of the embedding classes and of
    the parser. *)

(** a code point that [str.encode("utf-8")] rejects: a surrogate (a Python
    [str] holds no code point above U+10FFFF) *)
Definition unencodable (c : N) : bool :=
  is_surrogate c || (0x110000 <=? c)%N.

(** the position and the value of the first such code point of a text *)
Definition first_unencodable (s : str) : option (nat * N) :=
  list_find (λ c, unencodable c = true) s.

(** what [np.random.normal] raises for a negative [size] *)
Definition negative_dimensions : exn :=
  ValueError (py "negative dimensions are not allowed").

(** a printable ASCII character, [' '..'~'] *)
Definition printable (c : N) : Prop := (32 ≤ c ≤ 126)%N.

Global Instance printable_dec c : Decision (printable c) :=
  ltac:(unfold printable; apply _).

(** a text of printable ASCII characters and line feeds *)
Definition ascii_lines (s : str) : Prop :=
  Forall (λ c, c = 10%N ∨ printable c) s.

(** * Properties *)

(** ** Test vectors *)

Example sha256_abc :
  hashlib.hexdigest (hashlib.sha256 [97; 98; 99])
  = py "ba7816bf8f01cfea414140de5dae2223b00361a396177a9cb410ff61f20015ad".
Proof. vm_compute. reflexivity. Qed.

Example sha256_constants :
  take 2 hashlib.K = [0x428a2f98; 0x71374491]
  ∧ hashlib.H0 = hashlib.W8 0x6a09e667 0xbb67ae85 0x3c6ef372 0xa54ff53a
                             0x510e527f 0x9b05688c 0x1f83d9ab 0x5be0cd19.
Proof. by vm_compute. Qed.

(** a message of two blocks *)
Example sha256_two_blocks :
  hashlib.hexdigest (hashlib.sha256 (replicate 70 97))
  = py "6bd5e5034855a11241f0dee8fc72850ffd9955b28347a86428b5fa19119f6ad0".
Proof. vm_compute. reflexivity. Qed.

Example sha256_empty :
  hashlib.hexdigest (hashlib.sha256 [])
  = py "e3b0c44298fc1c149afbf4c8996fb92427ae41e4649b934ca495991b7852b855".
Proof. vm_compute. reflexivity. Qed.

(** ** List comprehensions *)

Lemma mapM_state_cons {S A B} (f : A → state S B) x l s :
  mapM f (x :: l) s
  = match f x s with
    | (Ok y, s1) =>
        match mapM f l s1 with
        | (Ok k, s2) => (Ok (y :: k), s2)
        | (Raise e, s2) => (Raise e, s2)
        end
    | (Raise e, s1) => (Raise e, s1)
    end.
Proof.
  simpl. unfold mbind at 1. unfold state_bind at 1.
  destruct (f x s) as [[y|e] s1]; [|done].
  unfold mbind at 1. unfold state_bind at 1.
  by destruct (mapM f l s1) as [[k|e] s2].
Qed.

Lemma mapM_result_cons {A B} (f : A → result B) x l :
  mapM f (x :: l)
  = match f x with
    | Ok y => match mapM f l with Ok k => Ok (y :: k) | Raise e => Raise e end
    | Raise e => Raise e
    end.
Proof.
  simpl. unfold mbind at 1. unfold result_bind at 1.
  destruct (f x) as [y|e]; [|done].
  unfold mbind at 1. unfold result_bind at 1.
  by destruct (mapM f l) as [k|e].
Qed.

Lemma mapM_result_ext {A B} (f g : A → result B) l :
  (∀ x, f x = g x) → mapM f l = mapM g l.
Proof.
  intros Hfg. induction l as [|x l IH]; [done|].
  by rewrite !mapM_result_cons, Hfg, IH.
Qed.

(** ** [numpy.random] *)

Section np_random_facts.
Context `{NumpyRandom}.

Lemma draws_length n g : length (np_random.draws n g).1 = n.
Proof.
  revert g. induction n as [|n IH]; intros g; simpl; [done|].
  destruct (standard_normal g) as [x g1].
  specialize (IH g1). destruct (np_random.draws n g1) as [xs g2].
  simpl in *. by rewrite IH.
Qed.

Lemma normal_ok size g :
  0 ≤ size →
  ∃ xs g', np_random.normal size g = (Ok xs, g')
           ∧ Z.of_nat (length xs) = size.
Proof.
  intros Hsize. unfold np_random.normal.
  rewrite bool_decide_eq_false_2 by lia.
  pose proof (draws_length (Z.to_nat size) g) as Hlen.
  destruct (np_random.draws (Z.to_nat size) g) as [xs g'].
  exists xs, g'. split; [done|]. simpl in Hlen. lia.
Qed.

Lemma seed_ok s g :
  0 ≤ s < 2 ^ 32 → np_random.seed s g = (Ok (), seeded s).
Proof. intros Hs. unfold np_random.seed. by rewrite bool_decide_eq_true_2. Qed.
End np_random_facts.

(** ** [_get_seed] *)

Lemma land_byte x : is_byte (Z.land x 0xff).
Proof.
  unfold is_byte. change 0xff with (Z.ones 8). rewrite Z.land_ones by lia.
  apply Z.mod_pos_bound. lia.
Qed.

Lemma be_bytes_bytes n x : Forall is_byte (hashlib.be_bytes n x).
Proof.
  unfold hashlib.be_bytes. apply Forall_fmap, Forall_forall.
  intros i _. apply land_byte.
Qed.

Lemma sha256_bytes data :
  Forall is_byte (hashlib.sha256 data) ∧ length (hashlib.sha256 data) = 32%nat.
Proof.
  unfold hashlib.sha256.
  destruct (hashlib.blocks _ _ _) as [a b c d e f g h].
  split; [|done].
  repeat (apply Forall_app; split); apply be_bytes_bytes.
Qed.

Lemma hex_value_digit d : 0 ≤ d < 16 → hex_value (hashlib.hex_digit d) = Some d.
Proof.
  intros Hd.
  assert (d = 0 ∨ d = 1 ∨ d = 2 ∨ d = 3 ∨ d = 4 ∨ d = 5 ∨ d = 6 ∨ d = 7
          ∨ d = 8 ∨ d = 9 ∨ d = 10 ∨ d = 11 ∨ d = 12 ∨ d = 13 ∨ d = 14
          ∨ d = 15) as Hcases by lia.
  repeat (destruct Hcases as [->|Hcases]; [reflexivity|]).
  by subst.
Qed.

Lemma nibbles b :
  is_byte b → 0 ≤ Z.shiftr b 4 < 16 ∧ 0 ≤ Z.land b 0xf < 16.
Proof.
  unfold is_byte. intros Hb. split.
  - rewrite Z.shiftr_div_pow2 by lia. change (2 ^ 4) with 16.
    split; [apply Z.div_pos; lia|]. apply Z.div_lt_upper_bound; lia.
  - change 0xf with (Z.ones 4). rewrite Z.land_ones by lia.
    apply Z.mod_pos_bound. lia.
Qed.

Lemma int16_from_hexdigest digest acc :
  Forall is_byte digest → 0 ≤ acc →
  ∃ n, int16_from acc (hashlib.hexdigest digest) = Ok n ∧ 0 ≤ n.
Proof.
  intros Hbytes. revert acc.
  induction Hbytes as [|b digest Hb _ IH]; intros acc Hacc.
  - exists acc. done.
  - destruct (nibbles b Hb) as [Hhi Hlo].
    change (hashlib.hexdigest (b :: digest))
      with (hashlib.hex_digit (Z.shiftr b 4)
              :: hashlib.hex_digit (Z.land b 0xf) :: hashlib.hexdigest digest).
    simpl. rewrite !hex_value_digit by done.
    apply IH. lia.
Qed.

Lemma int16_hexdigest_sha256 data :
  ∃ n, int16 (hashlib.hexdigest (hashlib.sha256 data)) = Ok n ∧ 0 ≤ n.
Proof.
  destruct (sha256_bytes data) as [Hbytes Hlen].
  destruct (hashlib.sha256 data) as [|b digest] eqn:E; [done|].
  destruct (int16_from_hexdigest (b :: digest) 0 Hbytes) as (n & Hn & ?); [done|].
  exists n. split; [|done].
  destruct (nibbles b) as [Hhi _]; [by inversion Hbytes|].
  revert Hn. unfold int16.
  change (hashlib.hexdigest (b :: digest))
    with (hashlib.hex_digit (Z.shiftr b 4)
            :: hashlib.hex_digit (Z.land b 0xf) :: hashlib.hexdigest digest).
  done.
Qed.

Lemma encode_from_cases pos s :
  (utf8_encodable s ∧ ∃ bs, encode_from pos s = Ok bs)
  ∨ (¬ utf8_encodable s ∧ ∃ p c, encode_from pos s = Raise (UnicodeEncodeError p c)).
Proof.
  revert pos. induction s as [|c s IH]; intros pos.
  - left. split; [constructor|]. by exists [].
  - simpl. destruct (utf8_char c) as [bs|] eqn:Ec.
    + destruct (IH (S pos)) as [[Hs [rest ->]]|[Hs (p & c' & ->)]].
      * left. split; [constructor; [by rewrite Ec|done]|]. by eexists.
      * right. split; [|by eexists _, _]. intros Hall. apply Hs.
        by inversion Hall.
    + right. split; [|by eexists _, _]. intros Hall.
      inversion Hall as [|?? Hc]. rewrite Ec in Hc. by destruct Hc.
Qed.

Lemma _get_seed_cases self text :
  (utf8_encodable text
   ∧ ∃ s, DeterministicFakeEmbedding._get_seed self text = Ok s
          ∧ 0 ≤ s < 10 ^ 8)
  ∨ (¬ utf8_encodable text
     ∧ ∃ p c, DeterministicFakeEmbedding._get_seed self text
              = Raise (UnicodeEncodeError p c)).
Proof.
  unfold DeterministicFakeEmbedding._get_seed, encode_utf8.
  destruct (encode_from_cases 0 text) as [[Ht [bs ->]]|[Ht (p & c & ->)]].
  - left. split; [done|]. simpl.
    destruct (int16_hexdigest_sha256 bs) as (n & -> & Hn). simpl.
    eexists. split; [done|]. apply Z.mod_pos_bound. lia.
  - right. split; [done|]. by exists p, c.
Qed.

Lemma _get_seed_range self text s :
  DeterministicFakeEmbedding._get_seed self text = Ok s → 0 ≤ s < 10 ^ 8.
Proof.
  destruct (_get_seed_cases self text)
    as [[_ (s' & -> & Hs)]|[_ (p & c & ->)]]; congruence.
Qed.

(** ** The embedding classes *)

Section embedding_facts.
Context `{NumpyRandom}.

Lemma fake_embed_documents_ok self texts g :
  0 ≤ FakeEmbeddings.size self →
  ∃ vs g', FakeEmbeddings.embed_documents self texts g = (Ok vs, g')
           ∧ embeddings_shape (FakeEmbeddings.size self) texts vs.
Proof.
  intros Hsize. revert g. induction texts as [|t texts IH]; intros g.
  - exists [], g. repeat split. constructor.
  - destruct (normal_ok (FakeEmbeddings.size self) g Hsize)
      as (v & g1 & Hv & Hlen).
    destruct (IH g1) as (vs & g2 & Hvs & Hlens & Hall).
    exists (v :: vs), g2. split.
    + unfold FakeEmbeddings.embed_documents in *.
      rewrite mapM_state_cons.
      unfold FakeEmbeddings._get_embedding at 1. by rewrite Hv, Hvs.
    + split; [simpl; by rewrite Hlens|]. by constructor.
Qed.

Lemma det_get_embedding_eq self s g :
  0 ≤ s < 2 ^ 32 →
  DeterministicFakeEmbedding._get_embedding self s g
  = np_random.normal (DeterministicFakeEmbedding.size self) (seeded s).
Proof.
  intros Hs. unfold DeterministicFakeEmbedding._get_embedding.
  unfold mbind, state_bind. by rewrite seed_ok.
Qed.

Lemma embed_query_eq self text g :
  (DeterministicFakeEmbedding.embed_query self text g).1
  = embedding_of self text.
Proof.
  unfold DeterministicFakeEmbedding.embed_query, embedding_of.
  unfold mbind at 1. unfold state_bind, lift.
  destruct (DeterministicFakeEmbedding._get_seed self text) as [s|e] eqn:Es;
    [|done].
  apply _get_seed_range in Es. simpl.
  rewrite det_get_embedding_eq by lia. done.
Qed.

Lemma embed_documents_eq self texts g :
  (DeterministicFakeEmbedding.embed_documents self texts g).1
  = mapM (embedding_of self) texts.
Proof.
  revert g. induction texts as [|t texts IH]; intros g; [done|].
  pose proof (embed_query_eq self t g) as Hq.
  unfold DeterministicFakeEmbedding.embed_documents in *.
  unfold DeterministicFakeEmbedding.embed_query in Hq.
  rewrite mapM_state_cons, mapM_result_cons, <- Hq.
  destruct (_ ≫= _) as [[v|e] g1]; simpl; [|done].
  rewrite <- (IH g1).
  match goal with |- context [mapM ?f texts g1] =>
    by destruct (mapM (M:=state RandomState) f texts g1) as [[vs|e] g2]
  end.
Qed.

Lemma det_embed_documents_ok self texts g :
  0 ≤ DeterministicFakeEmbedding.size self →
  Forall utf8_encodable texts →
  ∃ vs g', DeterministicFakeEmbedding.embed_documents self texts g = (Ok vs, g')
           ∧ embeddings_shape (DeterministicFakeEmbedding.size self) texts vs.
Proof.
  intros Hsize Htexts. revert g.
  induction Htexts as [|t texts Ht _ IH]; intros g.
  - exists [], g. repeat split. constructor.
  - destruct (_get_seed_cases self t) as [[_ (s & Hs & Hrange)]|[? _]];
      [|done].
    destruct (normal_ok (DeterministicFakeEmbedding.size self) (seeded s) Hsize)
      as (v & g1 & Hv & Hlen).
    destruct (IH g1) as (vs & g2 & Hvs & Hlens & Hall).
    exists (v :: vs), g2. split.
    + unfold DeterministicFakeEmbedding.embed_documents in *.
      rewrite mapM_state_cons.
      unfold mbind at 1. unfold state_bind at 1. unfold lift at 1.
      by rewrite Hs, det_get_embedding_eq, Hv, Hvs by lia.
    + split; [simpl; by rewrite Hlens|]. by constructor.
Qed.

Lemma det_embed_documents_raises self texts g :
  0 ≤ DeterministicFakeEmbedding.size self →
  ¬ Forall utf8_encodable texts →
  ∃ p c g', DeterministicFakeEmbedding.embed_documents self texts g
            = (Raise (UnicodeEncodeError p c), g').
Proof.
  intros Hsize. revert g. induction texts as [|t texts IH]; intros g Hnot.
  - destruct Hnot. constructor.
  - unfold DeterministicFakeEmbedding.embed_documents in *.
    rewrite mapM_state_cons.
    unfold mbind at 1. unfold state_bind at 1. unfold lift at 1.
    destruct (_get_seed_cases self t)
      as [[Ht (s & -> & Hrange)]|[_ (p & c & ->)]].
    + rewrite det_get_embedding_eq by lia.
      destruct (normal_ok (DeterministicFakeEmbedding.size self) (seeded s) Hsize)
        as (v & g1 & -> & _).
      destruct (IH g1) as (p & c & g2 & ->).
      { intros Hall. apply Hnot. by constructor. }
      by exists p, c, g2.
    + by exists p, c, g.
Qed.
End embedding_facts.

(** C4, as amended.  For a positive [size], [embed_documents] returns one
    vector of length [size] per text: [FakeEmbeddings] for every list of
    texts, [DeterministicFakeEmbedding] for the lists whose texts can all be
    encoded as UTF-8; a text that cannot (one with a surrogate code point)
    makes it raise [UnicodeEncodeError]. *)
Theorem embed_documents_shape `{NumpyRandom} (size : Z) (texts : list str)
    (g : RandomState) :
  0 < size →
  (∃ vs g',
      FakeEmbeddings.embed_documents (FakeEmbeddings.new size) texts g
      = (Ok vs, g')
      ∧ embeddings_shape size texts vs)
  ∧ (Forall utf8_encodable texts →
     ∃ vs g',
       DeterministicFakeEmbedding.embed_documents
         (DeterministicFakeEmbedding.new size) texts g
       = (Ok vs, g')
       ∧ embeddings_shape size texts vs)
  ∧ (¬ Forall utf8_encodable texts →
     ∃ p c g',
       DeterministicFakeEmbedding.embed_documents
         (DeterministicFakeEmbedding.new size) texts g
       = (Raise (UnicodeEncodeError p c), g')).
Proof.
  intros Hsize. split; [|split].
  - apply (fake_embed_documents_ok (FakeEmbeddings.new size)). simpl. lia.
  - apply (det_embed_documents_ok (DeterministicFakeEmbedding.new size)).
    simpl. lia.
  - apply (det_embed_documents_raises (DeterministicFakeEmbedding.new size)).
    simpl. lia.
Qed.

Lemma embed_documents_shape_witness :
  let texts := [py "hello world"; py "foo bar"] in
  0 < 3
  ∧ Forall utf8_encodable texts
  ∧ (∃ vs g',
       FakeEmbeddings.embed_documents (H := lcg_random)
         (FakeEmbeddings.new 3) texts 0
       = (Ok vs, g')
       ∧ embeddings_shape 3 texts vs)
  ∧ (∃ vs g',
       DeterministicFakeEmbedding.embed_documents (H := lcg_random)
         (DeterministicFakeEmbedding.new 3) texts 0
       = (Ok vs, g')
       ∧ embeddings_shape 3 texts vs).
Proof.
  intros texts.
  assert (0 < 3) as Hsize by lia.
  assert (Forall utf8_encodable texts) as Htexts
    by (repeat constructor; apply (bool_decide_unpack _); vm_compute; exact I).
  destruct (embed_documents_shape (H := lcg_random) 3 texts 0 Hsize)
    as (Hfake & Hdet & _).
  split; [exact Hsize|]. split; [exact Htexts|]. split; [exact Hfake|].
  exact (Hdet Htexts).
Defined.

(** C4 as stated fails for the deterministic class: a text holding a lone
    surrogate cannot be encoded, and [embed_documents] raises. *)
Lemma embed_documents_surrogate_raises :
  0 < 3
  ∧ DeterministicFakeEmbedding.embed_documents (H := lcg_random)
      (DeterministicFakeEmbedding.new 3) [[0xD800%N]] 0
    = (Raise (UnicodeEncodeError 0 0xD800), 0)
  ∧ ¬ ∃ vs g',
        DeterministicFakeEmbedding.embed_documents (H := lcg_random)
          (DeterministicFakeEmbedding.new 3) [[0xD800%N]] 0
        = (Ok vs, g')
        ∧ embeddings_shape 3 [[0xD800%N]] vs.
Proof.
  split; [lia|]. split; [by vm_compute|].
  intros (vs & g' & E & _). vm_compute in E. discriminate.
Qed.

(** C5.  Two calls of [DeterministicFakeEmbedding.embed_query] on the same
    text return the same result, whatever the state of the generator when
    each is made: the result is the samples drawn from the state that
    [sha256(text) mod 10**8] seeds, a function of the text and of [size]. *)
Theorem embed_query_deterministic `{NumpyRandom}
    (self : DeterministicFakeEmbedding.t) (text : str) (g1 g2 : RandomState) :
  (DeterministicFakeEmbedding.embed_query self text g1).1
  = (DeterministicFakeEmbedding.embed_query self text g2).1
  ∧ (DeterministicFakeEmbedding.embed_query self text g1).1
    = (s ← DeterministicFakeEmbedding._get_seed self text;
       (np_random.normal (DeterministicFakeEmbedding.size self) (seeded s)).1)
  ∧ (DeterministicFakeEmbedding.embed_query self text
       (DeterministicFakeEmbedding.embed_query self text g1).2).1
    = (DeterministicFakeEmbedding.embed_query self text g1).1.
Proof.
  rewrite !embed_query_eq. done.
Qed.

(** C10.  [DeterministicFakeEmbedding.embed_documents] is [embed_query]
    applied to each text in order: as one run over the list, and, since no
    call depends on the state the generator is in, as the plain list of the
    results of the single calls. *)
Theorem embed_documents_maps_embed_query `{NumpyRandom}
    (self : DeterministicFakeEmbedding.t) (texts : list str) (g : RandomState) :
  DeterministicFakeEmbedding.embed_documents self texts g
  = mapM (DeterministicFakeEmbedding.embed_query self) texts g
  ∧ ∀ g' : RandomState,
      (DeterministicFakeEmbedding.embed_documents self texts g).1
      = mapM (λ text, (DeterministicFakeEmbedding.embed_query self text g').1)
             texts.
Proof.
  split; [done|]. intros g'. rewrite embed_documents_eq.
  apply mapM_result_ext. intros text. by rewrite embed_query_eq.
Qed.

Example embed_documents_run :
  (DeterministicFakeEmbedding.embed_documents (H := lcg_random)
     (DeterministicFakeEmbedding.new 3) [py "a"; py "b"; py "a"] 7).1
  = Ok [[2120850136; 456453681; 1627556118];
        [246796562; 1862906083; 764914400];
        [2120850136; 456453681; 1627556118]].
Proof. by vm_compute. Qed.

(** ** The parser: validation *)

Section parser_facts.
Context `{JsonDecoder} {T : Type}.
Implicit Types (self : PydanticOutputParser.t T) (obj : json).

Lemma parse_result_ignores_partial v self result_ :
  PydanticOutputParser.parse_result v self result_ true
  = PydanticOutputParser.parse_result v self result_ false.
Proof. reflexivity. Qed.

Lemma parse_result_decoded v self result_ partial obj :
  JsonOutputParser.parse_result result_ false = Ok obj →
  PydanticOutputParser.parse_result v self result_ partial
  = PydanticOutputParser._parse_obj v self obj.
Proof. intros Hdec. unfold PydanticOutputParser.parse_result. by rewrite Hdec. Qed.

Lemma parse_decoded v self text obj :
  json_loads text = Ok obj →
  PydanticOutputParser.parse v self text
  = PydanticOutputParser._parse_obj v self obj.
Proof.
  intros Hdec. unfold PydanticOutputParser.parse, JsonOutputParser.parse.
  apply parse_result_decoded. simpl. by rewrite Hdec.
Qed.

(** on a pydantic model, [_parse_obj] is the validation of the class under
    the handler of [ValidationError] *)
Lemma _parse_obj_supported v self obj :
  base (PydanticOutputParser.pydantic_object self) ≠ NotPydantic →
  PydanticOutputParser._parse_obj v self obj
  = try_except (validate (PydanticOutputParser.pydantic_object self) obj)
      is_ValidationError
      (λ e, Raise (PydanticOutputParser._parser_exception self e obj)).
Proof.
  intros Hbase. unfold PydanticOutputParser._parse_obj.
  unfold issubclass_BaseModel, issubclass_v1_BaseModel, model_validate, parse_obj.
  destruct (base (PydanticOutputParser.pydantic_object self));
    by repeat case_bool_decide.
Qed.

Lemma _parse_obj_unsupported self obj :
  base (PydanticOutputParser.pydantic_object self) = NotPydantic →
  PydanticOutputParser._parse_obj 2 self obj
  = Raise (OutputParserException
             (py "Unsupported model version for PydanticOutputParser: " ++
              replicate 28 32%N ++
              __class__ (PydanticOutputParser.pydantic_object self))
             None None).
Proof.
  intros Hbase. unfold PydanticOutputParser._parse_obj.
  unfold issubclass_BaseModel, issubclass_v1_BaseModel. rewrite Hbase.
  by repeat case_bool_decide.
Qed.
End parser_facts.

(** C9.  Under pydantic 2, a [pydantic_object] that is a subclass neither
    of [pydantic.BaseModel] nor of [pydantic.v1.BaseModel] makes
    [_parse_obj] raise [OutputParserException] with the message
    "Unsupported model version for PydanticOutputParser: ..." for every
    decoded object, and so do [parse_result] and [parse] whenever the text
    decodes. *)
Theorem unsupported_model_version `{JsonDecoder} {T : Type}
    (PYDANTIC_MAJOR_VERSION : Z) (self : PydanticOutputParser.t T) (obj : json) :
  PYDANTIC_MAJOR_VERSION = 2 →
  base (PydanticOutputParser.pydantic_object self) = NotPydantic →
  let failure :=
    OutputParserException
      (py "Unsupported model version for PydanticOutputParser: " ++
       replicate 28 32%N ++
       __class__ (PydanticOutputParser.pydantic_object self))
      None None in
  PydanticOutputParser._parse_obj PYDANTIC_MAJOR_VERSION self obj = Raise failure
  ∧ (∀ result_ partial,
       JsonOutputParser.parse_result result_ false = Ok obj →
       PydanticOutputParser.parse_result PYDANTIC_MAJOR_VERSION self result_ partial
       = Raise failure)
  ∧ (∀ text,
       json_loads text = Ok obj →
       PydanticOutputParser.parse PYDANTIC_MAJOR_VERSION self text = Raise failure).
Proof.
  intros -> Hbase failure. split; [|split].
  - by apply _parse_obj_unsupported.
  - intros result_ partial Hdec.
    rewrite (parse_result_decoded _ _ _ _ _ Hdec).
    by apply _parse_obj_unsupported.
  - intros text Hdec. rewrite (parse_decoded _ _ _ _ Hdec).
    by apply _parse_obj_unsupported.
Qed.

Lemma unsupported_model_version_witness :
  2 = 2
  ∧ base (PydanticOutputParser.pydantic_object (PydanticOutputParser.new Point.cls))
    = NotPydantic
  ∧ PydanticOutputParser.parse (H := reference_decoder) 2
      (PydanticOutputParser.new Point.cls) (quoted (py "{'x': 1, 'y': 2}"))
    = Raise (OutputParserException
               (py "Unsupported model version for PydanticOutputParser: " ++
                py "                            <class 'type'>")
               None None).
Proof.
  split; [reflexivity|]. split; [reflexivity|].
  apply (unsupported_model_version (H := reference_decoder) 2
           (PydanticOutputParser.new Point.cls)
           (JDict [(py "x", JInt 1); (py "y", JInt 2)]) eq_refl eq_refl).
  vm_compute. reflexivity.
Defined.

(** the failure that [_parser_exception] builds *)
Lemma validation_failure_raises `{JsonDecoder} {T : Type}
    (PYDANTIC_MAJOR_VERSION : Z) (self : PydanticOutputParser.t T)
    (obj : json) (reason : str) :
  let cls := PydanticOutputParser.pydantic_object self in
  let json_string := json_encoder.dumps obj in
  let message :=
    py "Failed to parse " ++ __name__ cls ++ py " from completion " ++
    json_string ++ py ". Got: " ++ reason in
  let failure := OutputParserException message (Some json_string) None in
  base cls ≠ NotPydantic →
  validate cls obj = Raise (ValidationError reason) →
  PydanticOutputParser._parse_obj PYDANTIC_MAJOR_VERSION self obj = Raise failure
  ∧ (∀ result_ partial,
       JsonOutputParser.parse_result result_ false = Ok obj →
       PydanticOutputParser.parse_result PYDANTIC_MAJOR_VERSION self result_ partial
       = Raise failure)
  ∧ (∀ text,
       json_loads text = Ok obj →
       PydanticOutputParser.parse PYDANTIC_MAJOR_VERSION self text = Raise failure)
  ∧ contains (__name__ cls) message
  ∧ contains json_string message.
Proof.
  intros cls json_string message failure Hbase Hval.
  assert (PydanticOutputParser._parse_obj PYDANTIC_MAJOR_VERSION self obj
          = Raise failure) as Hobj.
  { rewrite _parse_obj_supported by done. fold cls. by rewrite Hval. }
  split; [done|]. split; [|split; [|split]].
  - intros result_ partial Hdec. by rewrite (parse_result_decoded _ _ _ _ _ Hdec).
  - intros text Hdec. by rewrite (parse_decoded _ _ _ _ Hdec).
  - by exists (py "Failed to parse "),
              (py " from completion " ++ json_string ++ py ". Got: " ++ reason).
  - exists (py "Failed to parse " ++ __name__ cls ++ py " from completion "),
           (py ". Got: " ++ reason).
    unfold message. by rewrite <- !(assoc_L (++)).
Qed.

(** C3.  A decoded JSON object that lacks a field the model requires
    makes parsing raise one [OutputParserException]: its message names the
    model and holds the object serialized back by [json.dumps], and its
    [llm_output] is that JSON string.  This holds of [_parse_obj], and of
    [parse_result] and [parse] on every input that decodes to the
    object. *)
Theorem missing_required_field_failure `{JsonDecoder} {T : Type}
    (PYDANTIC_MAJOR_VERSION : Z) (self : PydanticOutputParser.t T)
    (field : str) (d : dict) :
  let cls := PydanticOutputParser.pydantic_object self in
  let json_string := json_encoder.dumps (JDict d) in
  base cls ≠ NotPydantic →
  requires cls field →
  dict_get field d = None →
  ∃ reason,
    let message :=
      py "Failed to parse " ++ __name__ cls ++ py " from completion " ++
      json_string ++ py ". Got: " ++ reason in
    let failure := OutputParserException message (Some json_string) None in
    PydanticOutputParser._parse_obj PYDANTIC_MAJOR_VERSION self (JDict d)
    = Raise failure
    ∧ (∀ result_ partial,
         JsonOutputParser.parse_result result_ false = Ok (JDict d) →
         PydanticOutputParser.parse_result PYDANTIC_MAJOR_VERSION self
           result_ partial
         = Raise failure)
    ∧ (∀ text,
         json_loads text = Ok (JDict d) →
         PydanticOutputParser.parse PYDANTIC_MAJOR_VERSION self text
         = Raise failure)
    ∧ contains (__name__ cls) message
    ∧ contains json_string message.
Proof.
  intros cls json_string Hbase Hrequired Hmissing.
  destruct (Hrequired d Hmissing) as [reason Hval].
  exists reason.
  by apply (validation_failure_raises PYDANTIC_MAJOR_VERSION self (JDict d)).
Qed.

(** the sample model requires both of its fields *)
Lemma Joke_requires_fields (field : str) :
  field ∈ [py "setup"; py "punchline"] → requires Joke.cls field.
Proof.
  intros Hfield d Hnone. simpl. unfold Joke.validator, Joke.field.
  apply list_elem_of_In in Hfield. destruct Hfield as [<-|[<-|[]]].
  - rewrite Hnone. by eexists.
  - rewrite Hnone. destruct (dict_get (py "setup") d) as [[]|]; by eexists.
Qed.

Lemma missing_required_field_failure_witness :
  base Joke.cls ≠ NotPydantic
  ∧ requires Joke.cls (py "punchline")
  ∧ dict_get (py "punchline") [(py "setup", JStr (py "why"))] = None
  ∧ ∃ reason,
      PydanticOutputParser.parse (H := reference_decoder) 2
        (PydanticOutputParser.new Joke.cls) (quoted (py "{'setup': 'why'}"))
      = Raise (OutputParserException
                 (quoted (py "Failed to parse Joke from completion {'setup': 'why'}. Got: ")
                  ++ reason)
                 (Some (quoted (py "{'setup': 'why'}"))) None).
Proof.
  assert (base Joke.cls ≠ NotPydantic) as Hbase by discriminate.
  assert (requires Joke.cls (py "punchline")) as Hrequired
    by (apply Joke_requires_fields; apply list_elem_of_In; right; left;
        reflexivity).
  assert (dict_get (py "punchline") [(py "setup", JStr (py "why"))] = None)
    as Hmissing by reflexivity.
  split; [exact Hbase|]. split; [exact Hrequired|]. split; [exact Hmissing|].
  destruct (missing_required_field_failure (H := reference_decoder) 2
              (PydanticOutputParser.new Joke.cls) (py "punchline")
              [(py "setup", JStr (py "why"))] Hbase Hrequired Hmissing)
    as (reason & _ & _ & Hparse & _).
  exists reason. apply Hparse. vm_compute. reflexivity.
Defined.

Example missing_punchline :
  PydanticOutputParser.parse (H := reference_decoder) 2
    (PydanticOutputParser.new Joke.cls) (quoted (py "{'setup': 'why'}"))
  = Raise (OutputParserException
             (quoted (py "Failed to parse Joke from completion {'setup': 'why'}. Got: punchline: field required"))
             (Some (quoted (py "{'setup': 'why'}"))) None).
Proof. vm_compute. reflexivity. Qed.

(** ** The parser: decoding *)

(** C7.  A text that the decoder rejects makes [parse] raise one
    [OutputParserException] that carries the original text (in its message
    and as [llm_output]) and the decode error (as its cause); validation is
    not reached. *)
Theorem malformed_json_is_parse_failure `{JsonDecoder} {T : Type}
    (PYDANTIC_MAJOR_VERSION : Z) (self : PydanticOutputParser.t T)
    (text msg : str) (pos : nat) :
  json_loads text = Raise (JSONDecodeError msg pos) →
  PydanticOutputParser.parse PYDANTIC_MAJOR_VERSION self text
  = Raise (OutputParserException (py "Invalid json output: " ++ text)
             (Some text) (Some (JSONDecodeError msg pos))).
Proof.
  intros Hdec.
  unfold PydanticOutputParser.parse, JsonOutputParser.parse.
  unfold PydanticOutputParser.parse_result, JsonOutputParser.parse_result.
  simpl. by rewrite Hdec.
Qed.

Lemma malformed_json_is_parse_failure_witness :
  json_loads (JsonDecoder := reference_decoder) (py "{not valid")
  = Raise (JSONDecodeError
             (py "Expecting property name enclosed in double quotes") 1)
  ∧ PydanticOutputParser.parse (H := reference_decoder) 2
      (PydanticOutputParser.new Joke.cls) (py "{not valid")
    = Raise (OutputParserException (py "Invalid json output: {not valid")
               (Some (py "{not valid"))
               (Some (JSONDecodeError
                        (py "Expecting property name enclosed in double quotes") 1))).
Proof.
  assert (json_loads (JsonDecoder := reference_decoder) (py "{not valid")
          = Raise (JSONDecodeError
                     (py "Expecting property name enclosed in double quotes") 1))
    as Hdec by (vm_compute; reflexivity).
  split; [exact Hdec|].
  exact (malformed_json_is_parse_failure (H := reference_decoder) 2
           (PydanticOutputParser.new Joke.cls) (py "{not valid") _ _ Hdec).
Defined.

(** C1, on the code.  With [partial=True] and a truncated JSON object,
    [parse_result] does what it does with [partial=False]: the flag is not
    passed on and validation always runs.  Under a strict parent the decode
    failure comes out; under a parent that completes the text to the fields
    read so far, the validation failure for the missing field comes out.
    No partial object is returned in either case. *)
Theorem parse_result_partial_truncated :
  let truncated := [{| text := quoted (py "{'setup': 'why'") |}] in
  let parser := PydanticOutputParser.new Joke.cls in
  PydanticOutputParser.parse_result (H := reference_decoder) 2 parser truncated true
  = Raise (OutputParserException
             (quoted (py "Invalid json output: {'setup': 'why'"))
             (Some (quoted (py "{'setup': 'why'")))
             (Some (JSONDecodeError (py "Expecting ',' delimiter") 15)))
  ∧ JsonOutputParser.parse_result (H := lenient_decoder) truncated false
    = Ok (JDict [(py "setup", JStr (py "why"))])
  ∧ PydanticOutputParser.parse_result (H := lenient_decoder) 2 parser truncated true
    = Raise (OutputParserException
               (quoted (py "Failed to parse Joke from completion {'setup': 'why'}. Got: punchline: field required"))
               (Some (quoted (py "{'setup': 'why'}"))) None).
Proof. repeat split; vm_compute; reflexivity. Qed.

(** ** dict values *)

Lemma dict_get_None k (d : dict) : dict_get k d = None ↔ k ∉ d.*1.
Proof.
  induction d as [|[k' v] d IH]; simpl.
  - split; [intros _; apply not_elem_of_nil|done].
  - rewrite not_elem_of_cons. destruct (decide (k' = k)) as [->|Hne].
    + split; [done|]. by intros [? _].
    + rewrite IH. split; [intros Hd; split; [congruence|done]|by intros [_ Hd]].
Qed.

Lemma dict_get_Some_elem k v (d : dict) : dict_get k d = Some v → (k, v) ∈ d.
Proof.
  induction d as [|[k' v'] d IH]; simpl; [done|].
  destruct (decide (k' = k)) as [->|Hne].
  - intros [= ->]. apply elem_of_cons. by left.
  - intros Hget. apply elem_of_cons. right. by apply IH.
Qed.

Lemma dict_contains_true k (d : dict) : dict_contains k d = true ↔ k ∈ d.*1.
Proof.
  unfold dict_contains. rewrite bool_decide_eq_true.
  destruct (dict_get k d) as [v|] eqn:E.
  - split; [|by eauto]. intros _. apply dict_get_Some_elem in E.
    apply list_elem_of_fmap. by exists (k, v).
  - apply dict_get_None in E. split; [by intros [? [=]]|done].
Qed.

Lemma dict_setitem_fresh k v (d : dict) :
  k ∉ d.*1 → dict_setitem k v d = d ++ [(k, v)].
Proof.
  induction d as [|[k' v'] d IH]; simpl; [done|].
  rewrite not_elem_of_cons. intros [Hne Hd].
  destruct (decide (k' = k)); [congruence|]. by rewrite IH.
Qed.

(** copying a dict entry by entry gives the same entries in the same
    order *)
Lemma dict_copy (d acc : dict) :
  NoDup (acc ++ d).*1 →
  foldl (λ d kv, dict_setitem kv.1 kv.2 d) acc d = acc ++ d.
Proof.
  revert acc. induction d as [|[k v] d IH]; intros acc Hnodup; simpl.
  - by rewrite app_nil_r.
  - assert (k ∉ acc.*1) as Hk.
    { rewrite fmap_app in Hnodup.
      apply list.NoDup_app in Hnodup as (_ & Hdisj & _).
      intros Hk. apply (Hdisj k Hk). simpl. apply elem_of_cons. by left. }
    rewrite dict_setitem_fresh by done.
    rewrite IH; by rewrite <- (assoc_L (++)).
Qed.

Lemma dict_filter_absent k (d : dict) :
  k ∉ d.*1 → filter (λ kv, kv.1 ≠ k) d = d.
Proof.
  induction d as [|[k' v] d IH]; [done|]. simpl.
  rewrite not_elem_of_cons. intros [Hne Hd].
  rewrite filter_cons_True by (simpl; congruence). by rewrite IH.
Qed.

Lemma dict_discard_filter k (d : dict) :
  NoDup d.*1 → dict_discard k d = filter (λ kv, kv.1 ≠ k) d.
Proof.
  unfold dict_discard. intros Hnodup.
  destruct (dict_contains k d) eqn:Hin.
  - clear Hin. induction d as [|[k' v] d IH]; [done|]. simpl in *.
    apply list.NoDup_cons in Hnodup as [Hk' Hnodup].
    destruct (decide (k' = k)) as [->|Hne].
    + rewrite filter_cons_False by (simpl; naive_solver).
      by rewrite dict_filter_absent.
    + rewrite filter_cons_True by done. by rewrite IH.
  - symmetry. apply dict_filter_absent. rewrite <- dict_contains_true.
    by rewrite Hin.
Qed.

Lemma dict_filter_NoDup (P : str * json → Prop) `{∀ kv, Decision (P kv)}
    (d : dict) :
  NoDup d.*1 → NoDup (filter P d).*1.
Proof.
  induction d as [|[k v] d IH]; [done|]. simpl. intros Hnodup.
  apply list.NoDup_cons in Hnodup as [Hk Hnodup].
  destruct (decide (P (k, v))).
  - rewrite filter_cons_True by done. simpl. apply list.NoDup_cons. split; [|auto].
    intros Hin. apply Hk. apply list_elem_of_fmap in Hin as ([k' v'] & -> & Hin).
    apply list_elem_of_filter in Hin as [_ Hin].
    apply list_elem_of_fmap. by exists (k', v').
  - rewrite filter_cons_False by done. auto.
Qed.

Lemma reduced_schema_discard (d : dict) :
  NoDup d.*1 →
  dict_discard (py "type") (dict_discard (py "title") d) = reduced_schema d.
Proof.
  intros Hnodup. rewrite (dict_discard_filter (py "title") d) by done.
  rewrite dict_discard_filter by by apply dict_filter_NoDup.
  unfold reduced_schema. rewrite list_filter_filter.
  apply list_filter_iff. intros [k v]. simpl. tauto.
Qed.

Lemma dict_get_reduced k (d : dict) :
  dict_get k (reduced_schema d)
  = if decide (k ≠ py "title" ∧ k ≠ py "type") then dict_get k d else None.
Proof.
  unfold reduced_schema.
  induction d as [|[k' v] d IH]; simpl; [by case_decide|].
  destruct (decide (k' ≠ py "title" ∧ k' ≠ py "type")) as [Hk'|Hk'].
  - rewrite filter_cons_True by done. simpl.
    destruct (decide (k' = k)) as [->|Hne]; by repeat case_decide.
  - rewrite filter_cons_False by done. rewrite IH.
    destruct (decide (k' = k)) as [->|Hne]; by repeat case_decide.
Qed.

(** ** [json.dumps] of a dict *)

Lemma contains_app_r (x pre s : str) : contains x s → contains x (pre ++ s).
Proof.
  intros (before & after & ->). exists (pre ++ before), after.
  by rewrite <- (assoc_L (++)).
Qed.

Lemma contains_app_l (x s post : str) : contains x s → contains x (s ++ post).
Proof.
  intros (before & after & ->). exists before, (after ++ post).
  by rewrite <- !(assoc_L (++)).
Qed.

Lemma contains_refl (x : str) : contains x x.
Proof. exists [], []. by rewrite app_nil_r. Qed.

Lemma join_contains (sep x : str) (parts : list str) :
  x ∈ parts → contains x (json_encoder.join sep parts).
Proof.
  induction parts as [|p parts IH]; [by intros ?%elem_of_nil|].
  intros [->|Hin]%elem_of_cons.
  - destruct parts; [apply contains_refl|].
    apply contains_app_l, contains_refl.
  - destruct parts as [|q parts]; [by apply elem_of_nil in Hin|].
    change (contains x (p ++ sep ++ json_encoder.join sep (q :: parts))).
    by apply contains_app_r, contains_app_r, IH.
Qed.

Lemma dumps_dict_contains (k : str) (v : json) (d : dict) :
  (k, v) ∈ d →
  contains (json_encoder.encode_basestring_ascii k ++ py ": " ++ json_encoder.dumps v)
           (json_encoder.dumps (JDict d)).
Proof.
  intros Hin. change (json_encoder.dumps (JDict d)) with
    (py "{" ++
     json_encoder.join (py ", ")
       ((λ kv, json_encoder.encode_basestring_ascii kv.1 ++ py ": " ++
               json_encoder.dumps kv.2) <$> d) ++
     py "}").
  apply contains_app_r, contains_app_l, join_contains.
  apply list_elem_of_fmap. by exists (k, v).
Qed.

(** ** The format instructions *)

Lemma format_instructions (schema_str : str) :
  format _PYDANTIC_FORMAT_INSTRUCTIONS [(py "schema", schema_str)]
  = Ok (instructions_head ++ schema_str ++ instructions_tail).
Proof. vm_compute. reflexivity. Qed.

Lemma heap_load_last (h : heap) (d : dict) :
  Heap.load (length h) (h ++ [d]) = (Ok d, h ++ [d]).
Proof. unfold Heap.load. by rewrite list_lookup_middle. Qed.

Lemma heap_discard_last (h : heap) (d : dict) (k : str) :
  (has ← Heap.contains (length h) k;
   if has : bool then Heap.delitem (length h) k else mret ()) (h ++ [d])
  = (Ok (), h ++ [dict_discard k d]).
Proof.
  unfold Heap.contains, Heap.delitem, dict_discard, dict_delitem.
  unfold mbind, state_bind. rewrite heap_load_last. simpl.
  destruct (dict_contains k d) eqn:Hin; [|done].
  rewrite heap_load_last. unfold lift, Heap.store. rewrite Hin.
  by rewrite insert_app_r_alt, Nat.sub_diag by done.
Qed.

Section format_facts.
Context {T : Type}.
Implicit Types (self : PydanticOutputParser.t T) (h : heap) (d : dict).

Lemma get_format_instructions_live self h d :
  h !! schema_ref (PydanticOutputParser.pydantic_object self) = Some d →
  PydanticOutputParser.get_format_instructions self h
  = (Ok (instructions_head ++ json_encoder.dumps (JDict (working_copy d))
         ++ instructions_tail),
     h ++ [working_copy d]).
Proof.
  intros Hlive. unfold PydanticOutputParser.get_format_instructions.
  unfold mbind at 1. unfold state_bind at 1. unfold schema at 1.
  unfold mret at 1. unfold state_ret at 1.
  unfold mbind at 1. unfold state_bind at 1. unfold Heap.load at 1.
  rewrite Hlive.
  unfold mbind at 1. unfold state_bind at 1.
  unfold Heap.comprehension, Heap.alloc.
  unfold mbind at 1. unfold state_bind at 1.
  pose proof (heap_discard_last h (foldl (λ d kv, dict_setitem kv.1 kv.2 d) [] d)
                (py "title")) as Htitle.
  unfold mbind at 1 in Htitle. unfold state_bind at 1 in Htitle.
  unfold mbind at 1. unfold state_bind at 1.
  destruct (Heap.contains _ _ _) as [[has|e] h1]; [|done].
  rewrite Htitle. clear Htitle.
  pose proof (heap_discard_last h
                (dict_discard (py "title")
                   (foldl (λ d kv, dict_setitem kv.1 kv.2 d) [] d))
                (py "type")) as Htype.
  unfold mbind at 1 in Htype. unfold state_bind at 1 in Htype.
  unfold mbind at 1. unfold state_bind at 1.
  unfold mbind at 1. unfold state_bind at 1.
  destruct (Heap.contains _ _ _) as [[has'|e] h2]; [|done].
  rewrite Htype. clear Htype.
  unfold mbind at 1. unfold state_bind at 1.
  unfold Heap.dumps. unfold mbind at 1. unfold state_bind at 1.
  rewrite heap_load_last. unfold mret, state_ret, lift.
  by rewrite format_instructions.
Qed.

Lemma get_format_instructions_dangling self h :
  h !! schema_ref (PydanticOutputParser.pydantic_object self) = None →
  (PydanticOutputParser.get_format_instructions self h).2 = h.
Proof.
  intros Hdead. unfold PydanticOutputParser.get_format_instructions.
  unfold mbind at 1. unfold state_bind at 1. unfold schema at 1.
  unfold mret at 1. unfold state_ret at 1.
  unfold mbind at 1. unfold state_bind at 1. unfold Heap.load at 1.
  by rewrite Hdead.
Qed.
End format_facts.

Lemma working_copy_reduced (d : dict) :
  NoDup d.*1 → working_copy d = reduced_schema d.
Proof.
  intros Hnodup. unfold working_copy.
  rewrite (dict_copy d []) by done. by apply reduced_schema_discard.
Qed.

(** C6.  The instructions are the fixed text with, in the place of
    [{schema}], the [json.dumps] of the schema dict without its top-level
    [title] and [type] entries: every other entry is kept, and the
    [properties] entry appears in it as serialized by [json.dumps]. *)
Theorem format_instructions_embed_schema {T : Type}
    (self : PydanticOutputParser.t T) (h : heap) (d : dict) :
  h !! schema_ref (PydanticOutputParser.pydantic_object self) = Some d →
  NoDup d.*1 →
  (PydanticOutputParser.get_format_instructions self h).1
  = Ok (instructions_head ++ json_encoder.dumps (JDict (reduced_schema d))
        ++ instructions_tail)
  ∧ dict_get (py "title") (reduced_schema d) = None
  ∧ dict_get (py "type") (reduced_schema d) = None
  ∧ (∀ k, k ≠ py "title" → k ≠ py "type" →
       dict_get k (reduced_schema d) = dict_get k d)
  ∧ (∀ properties,
       dict_get (py "properties") d = Some properties →
       contains (quoted (py "'properties': ") ++ json_encoder.dumps properties)
                (json_encoder.dumps (JDict (reduced_schema d)))).
Proof.
  intros Hlive Hnodup.
  pose proof (λ k, dict_get_reduced k d) as Hget.
  split; [|split; [|split; [|split]]].
  - rewrite (get_format_instructions_live self h d Hlive). simpl.
    by rewrite working_copy_reduced.
  - rewrite Hget. rewrite decide_False; [done|]. by intros [? _].
  - rewrite Hget. rewrite decide_False; [done|]. by intros [_ ?].
  - intros k Htitle Htype. rewrite Hget. by rewrite decide_True.
  - intros properties Hprop.
    apply (dumps_dict_contains (py "properties")).
    apply dict_get_Some_elem. rewrite Hget.
    rewrite decide_True; [done|]. split; discriminate.
Qed.

Lemma format_instructions_embed_schema_witness :
  Joke.heap0 !! schema_ref Joke.cls = Some Joke.schema_dict
  ∧ NoDup Joke.schema_dict.*1
  ∧ (PydanticOutputParser.get_format_instructions
       (PydanticOutputParser.new Joke.cls) Joke.heap0).1
    = Ok (instructions_head
          ++ quoted (py "{'properties': {'setup': {'title': 'Setup', 'type': 'string'}, 'punchline': {'title': 'Punchline', 'type': 'string'}}, 'required': ['setup', 'punchline']}")
          ++ instructions_tail).
Proof.
  assert (Joke.heap0 !! schema_ref Joke.cls = Some Joke.schema_dict)
    as Hlive by reflexivity.
  assert (NoDup Joke.schema_dict.*1) as Hnodup
    by (apply (bool_decide_unpack _); vm_compute; exact I).
  split; [exact Hlive|]. split; [exact Hnodup|].
  destruct (format_instructions_embed_schema
              (PydanticOutputParser.new Joke.cls) Joke.heap0 Joke.schema_dict
              Hlive Hnodup) as [Hstr _].
  rewrite Hstr. vm_compute. reflexivity.
Defined.

(** C8.  [get_format_instructions] writes to no dict that existed before
    the call: the heap it leaves extends the heap it found, and what
    [pydantic_object.schema()] shows after the call is what it showed
    before. *)
Theorem format_instructions_leave_schema {T : Type}
    (self : PydanticOutputParser.t T) (h : heap) :
  let cls := PydanticOutputParser.pydantic_object self in
  let h' := (PydanticOutputParser.get_format_instructions self h).2 in
  h `prefix_of` h'
  ∧ ((schema cls ≫= Heap.load) h').1 = ((schema cls ≫= Heap.load) h).1.
Proof.
  intros cls h'.
  assert (h' = h ∨ ∃ copy, h' = h ++ [copy]) as Hh'.
  { unfold h'. destruct (h !! schema_ref cls) as [d|] eqn:Hlive.
    - right. exists (working_copy d).
      by rewrite (get_format_instructions_live self h d Hlive).
    - left. by apply get_format_instructions_dangling. }
  assert (h `prefix_of` h') as Hprefix.
  { destruct Hh' as [->|[copy ->]]; [done|]. by apply prefix_app_r. }
  split; [done|].
  unfold mbind, state_bind, schema, mret, state_ret, Heap.load.
  destruct (h !! schema_ref cls) as [d|] eqn:Hlive.
  - by rewrite (prefix_lookup_Some _ _ _ _ Hlive Hprefix).
  - destruct Hh' as [->|[copy Hcopy]]; [by rewrite Hlive|].
    exfalso. revert Hcopy. unfold h'.
    rewrite get_format_instructions_dangling by done.
    intros Heq. apply (f_equal length) in Heq.
    rewrite length_app in Heq. simpl in Heq. lia.
Qed.

Example format_instructions_alias :
  (PydanticOutputParser.get_format_instructions
     (PydanticOutputParser.new Joke.cls) Joke.heap0).2
  = [Joke.schema_dict;
     [(py "properties",
       JDict [(py "setup", Joke.string_field "Setup");
              (py "punchline", Joke.string_field "Punchline")]);
      (py "required", JList [JStr (py "setup"); JStr (py "punchline")])]].
Proof. vm_compute. reflexivity. Qed.

(** ** The reference decoder on examples

    The answers of CPython's [json.loads] on the same texts. *)

Example loads_nested :
  json_decoder.loads (quoted (py " {'a': [0, -12, 'x\n\u00e9'], 'b': {}, 'c': [true, false, null]} "))
  = Ok (JDict [(py "a", JList [JInt 0; JInt (-12); JStr [120; 10; 233]%N]);
               (py "b", JDict []);
               (py "c", JList [JBool true; JBool false; JNull])]).
Proof. vm_compute. reflexivity. Qed.

Example loads_duplicate_key :
  json_decoder.loads (quoted (py "{'a': 1, 'b': 2, 'a': 3}"))
  = Ok (JDict [(py "a", JInt 3); (py "b", JInt 2)]).
Proof. vm_compute. reflexivity. Qed.

Example loads_surrogate_pair :
  json_decoder.loads (quoted (py "'\ud83d\ude00 \ud83d \ude00'"))
  = Ok (JStr [0x1f600; 32; 0xd83d; 32; 0xde00]%N).
Proof. vm_compute. reflexivity. Qed.

Example loads_trailing_comma :
  json_decoder.loads (py "[1, 2,]")
  = Raise (JSONDecodeError (py "Expecting value") 6).
Proof. vm_compute. reflexivity. Qed.

Example loads_extra_data :
  json_decoder.loads (py "[1, 2] x")
  = Raise (JSONDecodeError (py "Extra data") 7).
Proof. vm_compute. reflexivity. Qed.

Example loads_truncated_escape :
  json_decoder.loads (quoted (py "'\ud83d\ude00"))
  = Raise (JSONDecodeError (py "Invalid \uXXXX escape") 8).
Proof. vm_compute. reflexivity. Qed.

Example dumps_escapes :
  json_encoder.dumps (JDict [(py "a", JList [JInt 0; JInt (-12);
                                             JStr [233; 10; 0x1f600; 34]%N]);
                             (py "b", JDict [])])
  = quoted (py "{'a': [0, -12, '\u00e9\n\ud83d\ude00\'']") ++ quoted (py ", 'b': {}}").
Proof. vm_compute. reflexivity. Qed.

(** ** The reference decoder reads back what [json.dumps] writes *)

Lemma json_ind' (P : json → Prop) :
  P JNull → (∀ b, P (JBool b)) → (∀ n, P (JInt n)) → (∀ s, P (JStr s)) →
  (∀ items, Forall P items → P (JList items)) →
  (∀ items, Forall (λ kv, P kv.2) items → P (JDict items)) →
  ∀ j, P j.
Proof.
  intros Hnull Hbool Hint Hstr Hlist Hdict. fix IH 1.
  intros [|b|n|s|items|items].
  - exact Hnull.
  - apply Hbool.
  - apply Hint.
  - apply Hstr.
  - apply Hlist. induction items as [|x items IHitems]; constructor;
      [apply IH|exact IHitems].
  - apply Hdict. induction items as [|[k v] items IHitems]; constructor;
      [apply IH|exact IHitems].
Qed.

Lemma decode_hex4 (c : N) (r : str) :
  (c < 0x10000)%N →
  json_decoder.hex4 (json_encoder.hex4 c ++ r) = Some (c, r).
Proof.
  intros Hc. unfold json_encoder.hex4, json_decoder.hex4. simpl.
  assert (0 ≤ Z.of_N c < 65536) as Hz by lia.
  set (z := Z.of_N c) in *.
  assert (∀ x, 0 ≤ Z.land x 0xf < 16) as Hnib.
  { intros x. change 0xf with (Z.ones 4). rewrite Z.land_ones by lia.
    apply Z.mod_pos_bound. lia. }
  rewrite !hex_value_digit by apply Hnib.
  f_equal. f_equal. apply N2Z.inj. rewrite Z2N.id.
  - fold z. change 0xf with (Z.ones 4). rewrite !Z.land_ones by lia.
    rewrite !Z.shiftr_div_pow2 by lia.
    change (2 ^ 12) with 4096. change (2 ^ 8) with 256. change (2 ^ 4) with 16.
    Z.div_mod_to_equations. lia.
  - pose proof (Hnib (Z.shiftr z 12)). pose proof (Hnib (Z.shiftr z 8)).
    pose proof (Hnib (Z.shiftr z 4)). pose proof (Hnib z). lia.
Qed.

Lemma N_lor_disjoint (a b : N) : N.land a b = 0%N → N.lor a b = (a + b)%N.
Proof.
  intros Hdisj. rewrite N.add_nocarry_lxor by done. symmetry.
  by apply N.lxor_lor.
Qed.

Lemma N_land_low10 (a x : N) :
  N.land a 0x3ff = 0%N → N.land a (N.land x 0x3ff) = 0%N.
Proof.
  intros Ha. rewrite (N.land_comm x), N.land_assoc, Ha. apply N.land_0_l.
Qed.

Lemma N_low10 (x : N) : N.land x 0x3ff = (x mod 1024)%N.
Proof. change 0x3ff%N with (N.ones 10). by rewrite N.land_ones. Qed.

Lemma N_shiftl10_disjoint (q x : N) :
  N.land (N.shiftl q 10) (N.land x 0x3ff) = 0%N.
Proof.
  apply N.bits_inj. intros i. rewrite N.bits_0, !N.land_spec.
  destruct (decide (i < 10)%N) as [Hlt|Hge].
  - by rewrite N.shiftl_spec_low.
  - change 0x3ff%N with (N.ones 10). rewrite N.ones_spec_high by lia.
    by rewrite !andb_false_r.
Qed.

(** the two escapes that [json.dumps] writes for a code point above
    U+FFFF *)
Lemma surrogate_pair (c : N) :
  (0x10000 ≤ c < 0x110000)%N →
  let n := (c - 0x10000)%N in
  let hi := N.lor 0xd800 (N.land (N.shiftr n 10) 0x3ff) in
  let lo := N.lor 0xdc00 (N.land n 0x3ff) in
  is_high_surrogate hi = true ∧ is_low_surrogate lo = true
  ∧ (0x10000 + N.lor (N.shiftl (hi - 0xd800) 10) (lo - 0xdc00))%N = c.
Proof.
  intros Hc n hi lo.
  assert (hi = 0xd800 + N.land (N.shiftr n 10) 0x3ff)%N as Hhi
    by (apply N_lor_disjoint; by apply N_land_low10).
  assert (lo = 0xdc00 + N.land n 0x3ff)%N as Hlo
    by (apply N_lor_disjoint; by apply N_land_low10).
  assert (n < 0x100000)%N as Hn by (unfold n; lia).
  assert (N.land (N.shiftr n 10) 0x3ff = N.shiftr n 10) as Hq.
  { rewrite N_low10, N.shiftr_div_pow2. change (2 ^ 10)%N with 1024%N.
    apply N.mod_small. apply N.Div0.div_lt_upper_bound. lia. }
  pose proof (N.mod_upper_bound n 1024 ltac:(done)) as Hr.
  rewrite <- N_low10 in Hr.
  split; [|split].
  - unfold is_high_surrogate. rewrite Hhi, Hq.
    assert (N.shiftr n 10 < 1024)%N.
    { rewrite N.shiftr_div_pow2. change (2 ^ 10)%N with 1024%N.
      apply N.Div0.div_lt_upper_bound. lia. }
    apply andb_true_intro. split; apply N.leb_le; lia.
  - unfold is_low_surrogate. rewrite Hlo.
    apply andb_true_intro. split; apply N.leb_le; lia.
  - rewrite Hhi, Hlo, Hq.
    replace (0xd800 + N.shiftr n 10 - 0xd800)%N with (N.shiftr n 10) by lia.
    replace (0xdc00 + N.land n 0x3ff - 0xdc00)%N with (N.land n 0x3ff) by lia.
    rewrite N_lor_disjoint by apply N_shiftl10_disjoint.
    rewrite N.shiftl_mul_pow2, N.shiftr_div_pow2, N_low10.
    change (2 ^ 10)%N with 1024%N.
    pose proof (N.div_mod n 1024 ltac:(done)). unfold n in *. lia.
Qed.

Lemma scan_unicode_escape n f start c r1 acc :
  (c < 0x10000)%N → r1 ≠ [] →
  (is_high_surrogate c → no_low_escape r1) →
  json_decoder.scanstring n (S f) start
    (92%N :: 117%N :: json_encoder.hex4 c ++ r1) acc
  = json_decoder.scanstring n f start r1 (c :: acc).
Proof.
  intros Hc Hr1 Hhigh.
  remember (json_encoder.hex4 c ++ r1) as r' eqn:Er'. simpl.
  rewrite Er', decode_hex4 by done.
  destruct r1 as [|b r2]; [done|].
  fold (is_high_surrogate c).
  destruct (is_high_surrogate c) eqn:Ehigh; [|done].
  destruct (Hhigh I) as [_ Hnext]. simpl.
  destruct (N.eqb_spec b 92) as [->|]; [|done]. simpl.
  case_bool_decide as Hu; [|done]. simpl.
  case_bool_decide as Hlen; [|done].
  destruct r2 as [|u r2']; [done|]. simpl in Hu. injection Hu as ->.
  destruct (Hnext r2' eq_refl) as (uni2 & r3 & Hhex & Hlow). simpl.
  rewrite Hhex. unfold is_low_surrogate in Hlow. by rewrite Hlow.
Qed.

Lemma scan_surrogate_pair n f start c r1 acc :
  (0x10000 ≤ c < 0x110000)%N → r1 ≠ [] →
  let m := (c - 0x10000)%N in
  json_decoder.scanstring n (S f) start
    (92%N :: 117%N
       :: json_encoder.hex4 (N.lor 0xd800 (N.land (N.shiftr m 10) 0x3ff))
       ++ 92%N :: 117%N
       :: json_encoder.hex4 (N.lor 0xdc00 (N.land m 0x3ff)) ++ r1) acc
  = json_decoder.scanstring n f start r1 (c :: acc).
Proof.
  intros Hc Hr1 m.
  destruct (surrogate_pair c Hc) as (Hhi & Hlo & Hjoin). fold m in Hhi, Hlo, Hjoin.
  set (hi := N.lor 0xd800 (N.land (N.shiftr m 10) 0x3ff)) in *.
  set (lo := N.lor 0xdc00 (N.land m 0x3ff)) in *.
  assert (hi < 0x10000 ∧ lo < 0x10000)%N as [Hhi16 Hlo16].
  { unfold is_high_surrogate in Hhi. unfold is_low_surrogate in Hlo.
    apply andb_prop in Hhi as [_ Hhi%N.leb_le].
    apply andb_prop in Hlo as [_ Hlo%N.leb_le]. lia. }
  remember (json_encoder.hex4 lo ++ r1) as r3 eqn:Er3.
  remember (json_encoder.hex4 hi ++ 92%N :: 117%N :: r3) as r' eqn:Er'.
  simpl. rewrite Er', decode_hex4 by done.
  unfold is_high_surrogate in Hhi. rewrite Hhi. simpl.
  rewrite bool_decide_eq_true_2.
  2:{ rewrite Er3, length_app. destruct r1; [done|]. simpl. lia. }
  rewrite Er3, decode_hex4 by done.
  unfold is_low_surrogate in Hlo. by rewrite Hlo, Hjoin.
Qed.

Lemma scan_escape_char n f start c r1 acc :
  (c < 0x110000)%N → r1 ≠ [] →
  (is_high_surrogate c → no_low_escape r1) →
  json_decoder.scanstring n (S f) start (json_encoder.escape_char c ++ r1) acc
  = json_decoder.scanstring n f start r1 (c :: acc).
Proof.
  intros Hc Hr1 Hhigh. unfold json_encoder.escape_char.
  destruct (N.eqb_spec c 34) as [->|H34]; [done|].
  destruct (N.eqb_spec c 92) as [->|H92]; [done|].
  destruct (N.eqb_spec c 10) as [->|H10]; [done|].
  destruct (N.eqb_spec c 13) as [->|H13]; [done|].
  destruct (N.eqb_spec c 9) as [->|H9]; [done|].
  destruct (N.eqb_spec c 12) as [->|H12]; [done|].
  destruct (N.eqb_spec c 8) as [->|H8]; [done|].
  destruct ((c <? 32)%N || (126 <? c)%N) eqn:Eesc.
  - destruct (N.ltb_spec c 0x10000) as [Hbmp|Hbig].
    + by apply scan_unicode_escape.
    + rewrite <- !(assoc_L (++)). apply scan_surrogate_pair; [lia|done].
  - apply orb_false_elim in Eesc as [Hlo%N.ltb_ge Hhi%N.ltb_ge].
    simpl.
    rewrite (proj2 (N.eqb_neq c 34)), (proj2 (N.eqb_neq c 92)) by done.
    by rewrite (proj2 (N.ltb_ge c 32)).
Qed.

Lemma escaped_no_low_escape (s rest : str) :
  wf_str s →
  (∀ c', head s = Some c' → ¬ is_low_surrogate c') →
  no_low_escape ((s ≫= json_encoder.escape_char) ++ 34%N :: rest).
Proof.
  intros Hwf Hhead. split; [by destruct (s ≫= json_encoder.escape_char)|].
  intros r2. destruct s as [|c s']; [done|].
  destruct Hwf as (Hc & _ & _). specialize (Hhead c eq_refl).
  change ((c :: s') ≫= json_encoder.escape_char)
    with (json_encoder.escape_char c ++ (s' ≫= json_encoder.escape_char)).
  rewrite <- (assoc_L (++)).
  generalize ((s' ≫= json_encoder.escape_char) ++ 34%N :: rest). intros r1.
  unfold json_encoder.escape_char.
  destruct (N.eqb_spec c 34) as [->|H34]; [done|].
  destruct (N.eqb_spec c 92) as [->|H92]; [done|].
  destruct (N.eqb_spec c 10) as [->|H10]; [done|].
  destruct (N.eqb_spec c 13) as [->|H13]; [done|].
  destruct (N.eqb_spec c 9) as [->|H9]; [done|].
  destruct (N.eqb_spec c 12) as [->|H12]; [done|].
  destruct (N.eqb_spec c 8) as [->|H8]; [done|].
  destruct ((c <? 32)%N || (126 <? c)%N) eqn:Eesc.
  - destruct (N.ltb_spec c 0x10000) as [Hbmp|Hbig].
    + intros [= <-]. exists c, r1. split; [by apply decode_hex4|].
      by destruct (is_low_surrogate c).
    + rewrite <- !(assoc_L (++)). intros [= <-].
      destruct (surrogate_pair c ltac:(lia)) as (Hhi & _ & _).
      eexists _, _. split; [apply decode_hex4|].
      * unfold is_high_surrogate in Hhi.
        apply andb_prop in Hhi as [_ Hhi%N.leb_le]. lia.
      * unfold is_high_surrogate in Hhi. unfold is_low_surrogate.
        apply andb_prop in Hhi as [_ Hhi%N.leb_le].
        apply andb_false_intro1, N.leb_gt. lia.
  - intros [= -> _]. done.
Qed.

(** the characters that [encode_basestring_ascii] writes between the
    quotes are read back as the string *)
Lemma scanstring_escaped n start (s : str) :
  ∀ f acc rest,
    wf_str s → (length s < f)%nat →
    json_decoder.scanstring n f start
      ((s ≫= json_encoder.escape_char) ++ 34%N :: rest) acc
    = Ok (rev acc ++ s, rest).
Proof.
  induction s as [|c s IH]; intros f acc rest Hwf Hf.
  - destruct f as [|f]; [simpl in Hf; lia|]. simpl. by rewrite app_nil_r.
  - destruct f as [|f]; [simpl in Hf; lia|].
    destruct Hwf as (Hc & Hhigh & Hwf).
    change ((c :: s) ≫= json_encoder.escape_char)
      with (json_encoder.escape_char c ++ (s ≫= json_encoder.escape_char)).
    rewrite <- (assoc_L (++)).
    rewrite scan_escape_char.
    + rewrite IH by (simpl in Hf; done || lia). simpl.
      by rewrite <- (assoc_L (++)).
    + done.
    + by destruct (s ≫= json_encoder.escape_char).
    + intros Hc'. apply escaped_no_low_escape; [done|]. by apply Hhigh.
Qed.

(** *** Numbers *)

Lemma delimited_not_digit (rest : str) :
  delimited rest →
  json_decoder.starts_float rest = false
  ∧ ∀ v, json_decoder.digits v rest = (v, rest).
Proof.
  destruct rest as [|c rest]; [done|].
  intros [-> | [-> | ->]]; by destruct rest.
Qed.

Lemma digits_of_uint_acc (u : Decimal.uint) (acc : positive) (rest : str) :
  delimited rest →
  json_decoder.digits (Z.pos acc) (json_encoder.uint_digits u ++ rest)
  = (Z.pos (Pos.of_uint_acc u acc), rest).
Proof.
  intros Hrest. revert acc.
  induction u as [|u IH|u IH|u IH|u IH|u IH|u IH|u IH|u IH|u IH|u IH];
    intros acc;
    [by apply delimited_not_digit|..];
    simpl; rewrite <- IH; f_equal; lia.
Qed.

Lemma digits_of_uint (u : Decimal.uint) (rest : str) :
  delimited rest →
  json_decoder.digits 0 (json_encoder.uint_digits u ++ rest)
  = (Z.of_N (Pos.of_uint u), rest).
Proof.
  intros Hrest.
  induction u as [|u IH|u IH|u IH|u IH|u IH|u IH|u IH|u IH|u IH|u IH];
    [by apply delimited_not_digit|by apply IH|..];
    simpl; by rewrite <- digits_of_uint_acc.
Qed.

(** the decimal digits of a positive number start with a digit other than
    0 *)
Lemma to_uint_leading (p : positive) :
  ∃ c digits, json_encoder.uint_digits (Pos.to_uint p) = c :: digits
              ∧ (49 ≤ c ≤ 57)%N.
Proof.
  destruct (Pos.to_uint p) as [|u|u|u|u|u|u|u|u|u|u] eqn:E;
    [by apply Unsigned.to_uint_nonnil in E| |eexists _, _; split; [done|lia]..].
  exfalso.
  pose proof (Unsigned.to_of (Pos.to_uint p)) as Hnorm.
  rewrite Unsigned.of_to in Hnorm. simpl in Hnorm.
  rewrite E, unorm_D0 in Hnorm.
  assert (u = Decimal.Nil ∨ u ≠ Decimal.Nil) as [->|Hnil]
    by (destruct u; auto).
  - by apply (Unsigned.to_uint_nonzero p).
  - apply nb_digits_unorm in Hnil. rewrite <- Hnorm in Hnil.
    simpl in Hnil. lia.
Qed.

Local Arguments json_decoder.digits : simpl never.

Lemma number_repr n (z : Z) (rest : str) :
  delimited rest →
  json_decoder.number n (json_encoder.repr_int z ++ rest) = Ok (JInt z, rest).
Proof.
  intros Hrest. destruct (delimited_not_digit rest Hrest) as [Hfloat _].
  unfold json_encoder.repr_int. destruct z as [|p|p]; simpl Z.to_int.
  - unfold json_decoder.number. simpl. by rewrite Hfloat.
  - destruct (to_uint_leading p) as (c & ds & Hds & Hc).
    unfold json_decoder.number. rewrite Hds. simpl.
    rewrite (proj2 (N.eqb_neq c 45)), (proj2 (N.eqb_neq c 48)) by lia.
    replace (json_decoder.is_digit c) with true
      by (symmetry; apply andb_true_intro; split; apply N.leb_le; lia).
    change (c :: ds ++ rest) with ((c :: ds) ++ rest).
    rewrite <- Hds, digits_of_uint, Hfloat, Unsigned.of_to by done. done.
  - destruct (to_uint_leading p) as (c & ds & Hds & Hc).
    unfold json_decoder.number. rewrite Hds. simpl.
    rewrite (proj2 (N.eqb_neq c 48)) by lia.
    replace (json_decoder.is_digit c) with true
      by (symmetry; apply andb_true_intro; split; apply N.leb_le; lia).
    change (c :: ds ++ rest) with ((c :: ds) ++ rest).
    rewrite <- Hds, digits_of_uint, Hfloat, Unsigned.of_to by done. done.
Qed.

Lemma repr_int_head (z : Z) :
  ∃ c s, json_encoder.repr_int z = c :: s
         ∧ ((48 ≤ c ≤ 57)%N
            ∨ c = 45%N ∧ ∃ d s', s = d :: s' ∧ (49 ≤ d ≤ 57)%N).
Proof.
  unfold json_encoder.repr_int. destruct z as [|p|p]; simpl Z.to_int.
  - eexists _, _. split; [done|]. left. lia.
  - destruct (to_uint_leading p) as (c & ds & -> & Hc).
    eexists _, _. split; [done|]. left. lia.
  - destruct (to_uint_leading p) as (c & ds & -> & Hc).
    eexists _, _. split; [done|]. right. split; [done|]. by eexists _, _.
Qed.

(** *** Values *)

Lemma value_scalar n f (c : N) (s : str) :
  c ≠ 34%N → c ≠ 123%N → c ≠ 91%N →
  json_decoder.value n (S f) (c :: s)
  = default (json_decoder.number n (c :: s))
      (json_decoder.literal "null" JNull (c :: s)
         ∪ json_decoder.literal "true" (JBool true) (c :: s)
         ∪ json_decoder.literal "false" (JBool false) (c :: s)
         ∪ json_decoder.float_literal "NaN" (c :: s)
         ∪ json_decoder.float_literal "Infinity" (c :: s)
         ∪ json_decoder.float_literal "-Infinity" (c :: s)).
Proof.
  intros H34 H123 H91. simpl.
  by rewrite (proj2 (N.eqb_neq c 34)), (proj2 (N.eqb_neq c 123)),
    (proj2 (N.eqb_neq c 91)).
Qed.

Lemma value_null n f rest :
  json_decoder.value n (S f) (py "null" ++ rest) = Ok (JNull, rest).
Proof.
  change (py "null" ++ rest) with (110%N :: (py "ull" ++ rest)).
  rewrite value_scalar by done.
  unfold json_decoder.literal. by rewrite decide_True.
Qed.

Lemma value_true n f rest :
  json_decoder.value n (S f) (py "true" ++ rest) = Ok (JBool true, rest).
Proof.
  change (py "true" ++ rest) with (116%N :: (py "rue" ++ rest)).
  rewrite value_scalar by done.
  unfold json_decoder.literal. rewrite decide_False by done.
  by rewrite decide_True.
Qed.

Lemma value_false n f rest :
  json_decoder.value n (S f) (py "false" ++ rest) = Ok (JBool false, rest).
Proof.
  change (py "false" ++ rest) with (102%N :: (py "alse" ++ rest)).
  rewrite value_scalar by done.
  unfold json_decoder.literal. rewrite !decide_False by done.
  by rewrite decide_True.
Qed.

Lemma value_int n f (z : Z) rest :
  delimited rest →
  json_decoder.value n (S f) (json_encoder.repr_int z ++ rest)
  = Ok (JInt z, rest).
Proof.
  intros Hrest. rewrite <- (number_repr n z rest Hrest).
  destruct (repr_int_head z) as (c & s & -> & Hc).
  change ((c :: s) ++ rest) with (c :: (s ++ rest)).
  rewrite value_scalar by lia.
  unfold json_decoder.literal, json_decoder.float_literal.
  destruct Hc as [Hc|[-> (d & s' & -> & Hd)]].
  - rewrite !decide_False; [done|simpl; intros [=]; lia..].
  - rewrite !decide_False; [done|simpl; intros [=]; lia..].
Qed.

Lemma value_str n f (s rest : str) :
  wf_str s →
  json_decoder.value n (S f) (json_encoder.encode_basestring_ascii s ++ rest)
  = Ok (JStr s, rest).
Proof.
  intros Hwf. unfold json_encoder.encode_basestring_ascii.
  rewrite <- !(assoc_L (++)).
  change ([34%N] ++ (s ≫= json_encoder.escape_char) ++ [34%N] ++ rest)
    with (34%N :: ((s ≫= json_encoder.escape_char) ++ 34%N :: rest)).
  remember ((s ≫= json_encoder.escape_char) ++ 34%N :: rest) as r eqn:Er.
  change (json_decoder.value n (S f) (34%N :: r))
    with ('(k, r') ← json_decoder.scanstring n (S (length r)) (34%N :: r) r [];
          Ok (JStr k, r')).
  rewrite Er, scanstring_escaped; [done..|].
  rewrite <- Er. apply Nat.lt_succ_r.
  rewrite Er, length_app. simpl.
  assert (length s ≤ length (s ≫= json_encoder.escape_char))%nat; [|lia].
  clear. induction s as [|c s IH]; [done|].
  change ((c :: s) ≫= json_encoder.escape_char)
    with (json_encoder.escape_char c ++ (s ≫= json_encoder.escape_char)).
  rewrite length_app. simpl.
  assert (1 ≤ length (json_encoder.escape_char c))%nat; [|lia].
  unfold json_encoder.escape_char. repeat case_match; simpl; lia.
Qed.

Lemma escaped_length (s : str) :
  (length s ≤ length (s ≫= json_encoder.escape_char))%nat.
Proof.
  induction s as [|c s IH]; [done|].
  change ((c :: s) ≫= json_encoder.escape_char)
    with (json_encoder.escape_char c ++ (s ≫= json_encoder.escape_char)).
  rewrite length_app. simpl.
  assert (1 ≤ length (json_encoder.escape_char c))%nat; [|lia].
  unfold json_encoder.escape_char. repeat case_match; simpl; lia.
Qed.

Lemma scanstring_quoted n start (s rest : str) :
  wf_str s →
  json_decoder.scanstring n
    (S (length ((s ≫= json_encoder.escape_char) ++ 34%N :: rest))) start
    ((s ≫= json_encoder.escape_char) ++ 34%N :: rest) []
  = Ok (s, rest).
Proof.
  intros Hwf. rewrite scanstring_escaped; [done..|].
  rewrite length_app. simpl. pose proof (escaped_length s). lia.
Qed.

Lemma skip_ws_head (c : N) (s : str) :
  json_decoder.is_ws c = false → json_decoder.skip_ws (c :: s) = c :: s.
Proof. intros Hc. simpl. by rewrite Hc. Qed.

(** the text of a value starts with a character that is neither white
    space nor a closing bracket *)
Lemma dumps_head (j : json) :
  ∃ c s, json_encoder.dumps j = c :: s
         ∧ json_decoder.is_ws c = false ∧ c ≠ 93%N ∧ c ≠ 125%N.
Proof.
  destruct j as [|[]|z|s|items|items]; try by eexists _, _.
  destruct (repr_int_head z) as (c & s & Hs & Hc).
  exists c, s. split; [done|].
  assert (45 ≤ c ≤ 57)%N as Hrange
    by (destruct Hc as [?|[-> _]]; lia).
  unfold json_decoder.is_ws. split; [|lia].
  by rewrite !(proj2 (N.eqb_neq c _)) by lia.
Qed.

Lemma skip_ws_dumps (j : json) (rest : str) :
  json_decoder.skip_ws (json_encoder.dumps j ++ rest)
  = json_encoder.dumps j ++ rest.
Proof.
  destruct (dumps_head j) as (c & s & -> & Hc & _). by apply skip_ws_head.
Qed.

Lemma elements_dumps n (items : list json) :
  items ≠ [] → Forall (read_back n) items →
  ∀ f acc rest,
    (length items + foldr (λ x m, fuel_for x + m) 0 items ≤ f)%nat →
    json_decoder.elements n f acc
      (json_encoder.join (py ", ") (json_encoder.dumps <$> items)
       ++ 93%N :: rest)
    = Ok (JList (rev acc ++ items), rest).
Proof.
  intros Hne Hitems. induction Hitems as [|x items Hx Hitems IH]; [done|].
  intros f acc rest Hf. simpl in Hf.
  destruct f as [|f]; [lia|].
  change (json_decoder.elements n (S f) acc ?s)
    with ('(v, r1) ← json_decoder.value n f s;
          match json_decoder.skip_ws r1 with
          | c :: r2 =>
              if (c =? 93)%N then Ok (JList (rev (v :: acc)), r2)
              else if (c =? 44)%N
                   then json_decoder.elements n f (v :: acc)
                          (json_decoder.skip_ws r2)
                   else json_decoder.fail n "Expecting ',' delimiter"
                          (json_decoder.skip_ws r1)
          | [] => json_decoder.fail n "Expecting ',' delimiter" []
          end).
  destruct items as [|y items].
  - simpl json_encoder.join. rewrite Hx by (done || lia || by right; left).
    done.
  - change (json_encoder.join (py ", ") (json_encoder.dumps <$> x :: y :: items))
      with (json_encoder.dumps x ++ py ", " ++
            json_encoder.join (py ", ") (json_encoder.dumps <$> y :: items)).
    rewrite <- !(assoc_L (++)).
    rewrite Hx by (done || lia || by left).
    change (py ", " ++ ?s) with (44%N :: 32%N :: s).
    cbn [mbind result_bind]. rewrite skip_ws_head by done.
    cbn [N.eqb Pos.eqb].
    change (json_decoder.skip_ws (32%N :: ?s)) with (json_decoder.skip_ws s).
    assert (∀ s, json_decoder.skip_ws
                   (json_encoder.join (py ", ") (json_encoder.dumps <$> y :: items) ++ s)
                 = json_encoder.join (py ", ") (json_encoder.dumps <$> y :: items) ++ s)
      as Hskip.
    { intros s. destruct items; simpl json_encoder.join;
        rewrite <- ?(assoc_L (++)); apply skip_ws_dumps. }
    rewrite Hskip. rewrite IH by (try done; simpl in *; lia). simpl.
    by rewrite <- (assoc_L (++)).
Qed.

Lemma members_dumps n (items : list (str * json)) :
  items ≠ [] → Forall (λ kv, wf_str kv.1 ∧ read_back n kv.2) items →
  ∀ f acc rest,
    NoDup (acc ++ items).*1 →
    (length items + foldr (λ kv m, fuel_for kv.2 + m) 0 items ≤ f)%nat →
    json_decoder.members n f acc
      (json_encoder.join (py ", ") (entry_text <$> items) ++ 125%N :: rest)
    = Ok (JDict (acc ++ items), rest).
Proof.
  intros Hne Hitems.
  induction Hitems as [|[k v] items [Hk Hv] Hitems IH]; [done|].
  intros f acc rest Hnodup Hf. simpl in Hf.
  destruct f as [|f]; [lia|].
  assert (k ∉ acc.*1) as Hfresh.
  { rewrite fmap_app in Hnodup.
    apply list.NoDup_app in Hnodup as (_ & Hdisj & _).
    intros Hin. apply (Hdisj k Hin). simpl. apply elem_of_cons. by left. }
  assert (∀ tail, delimited tail →
    json_decoder.members n (S f) acc (entry_text (k, v) ++ tail)
    = match json_decoder.skip_ws tail with
      | c4 :: r4 =>
          if (c4 =? 125)%N then Ok (JDict (acc ++ [(k, v)]), r4)
          else if (c4 =? 44)%N
               then json_decoder.members n f (acc ++ [(k, v)])
                      (json_decoder.skip_ws r4)
               else json_decoder.fail n "Expecting ',' delimiter"
                      (json_decoder.skip_ws tail)
      | [] => json_decoder.fail n "Expecting ',' delimiter" []
      end) as Hstep.
  { intros tail Htail.
    unfold entry_text, json_encoder.encode_basestring_ascii.
    simpl fst. simpl snd. rewrite <- !(assoc_L (++)).
    change ([34%N] ++ (k ≫= json_encoder.escape_char) ++ [34%N] ++
            py ": " ++ json_encoder.dumps v ++ tail)
      with (34%N :: ((k ≫= json_encoder.escape_char) ++
                     34%N :: 58%N :: 32%N :: json_encoder.dumps v ++ tail)).
    remember ((k ≫= json_encoder.escape_char) ++
              34%N :: 58%N :: 32%N :: json_encoder.dumps v ++ tail) as r eqn:Er.
    change (json_decoder.members n (S f) acc (34%N :: r))
      with ('(k', r1) ← json_decoder.scanstring n (S (length r)) (34%N :: r) r [];
            match json_decoder.skip_ws r1 with
            | c2 :: r2 =>
              if (c2 =? 58)%N then
                '(v', r3) ← json_decoder.value n f (json_decoder.skip_ws r2);
                let acc' := dict_setitem k' v' acc in
                match json_decoder.skip_ws r3 with
                | c4 :: r4 =>
                  if (c4 =? 125)%N then Ok (JDict acc', r4)
                  else if (c4 =? 44)%N
                       then json_decoder.members n f acc' (json_decoder.skip_ws r4)
                       else json_decoder.fail n "Expecting ',' delimiter"
                              (json_decoder.skip_ws r3)
                | [] => json_decoder.fail n "Expecting ',' delimiter" []
                end
              else json_decoder.fail n "Expecting ':' delimiter"
                     (json_decoder.skip_ws r1)
            | [] => json_decoder.fail n "Expecting ':' delimiter" []
            end).
    rewrite Er, scanstring_quoted by done.
    cbn [mbind result_bind]. rewrite skip_ws_head by done.
    cbn [N.eqb Pos.eqb].
    change (json_decoder.skip_ws (32%N :: ?s)) with (json_decoder.skip_ws s).
    rewrite skip_ws_dumps. rewrite Hv; [|simpl; lia|done].
    cbn [mbind result_bind]. by rewrite dict_setitem_fresh. }
  destruct items as [|kv items].
  - simpl json_encoder.join. rewrite Hstep by (by right; right).
    by rewrite skip_ws_head.
  - change (json_encoder.join (py ", ") (entry_text <$> (k, v) :: kv :: items))
      with (entry_text (k, v) ++ py ", " ++
            json_encoder.join (py ", ") (entry_text <$> kv :: items)).
    rewrite <- !(assoc_L (++)).
    change (py ", " ++ ?s) with (44%N :: 32%N :: s).
    rewrite Hstep by (by left). rewrite skip_ws_head by done.
    cbn [N.eqb Pos.eqb].
    change (json_decoder.skip_ws (32%N :: ?s)) with (json_decoder.skip_ws s).
    assert (∀ s, json_decoder.skip_ws
                   (json_encoder.join (py ", ") (entry_text <$> kv :: items) ++ s)
                 = json_encoder.join (py ", ") (entry_text <$> kv :: items) ++ s)
      as Hskip.
    { intros s. destruct items; simpl json_encoder.join;
        rewrite <- ?(assoc_L (++)); by apply skip_ws_head. }
    rewrite Hskip, IH.
    + by rewrite <- (assoc_L (++)).
    + done.
    + by rewrite <- (assoc_L (++)).
    + simpl in *. lia.
Qed.

Lemma wf_json_list (items : list json) :
  wf_json (JList items) ↔ Forall wf_json items.
Proof.
  simpl. induction items as [|x items IH]; simpl.
  - split; [constructor|done].
  - rewrite IH. split; [intros [??]; by constructor|by inversion 1].
Qed.

Lemma wf_json_dict (items : list (str * json)) :
  wf_json (JDict items)
  ↔ NoDup items.*1 ∧ Forall (λ kv, wf_str kv.1 ∧ wf_json kv.2) items.
Proof.
  simpl. apply and_iff_compat_l.
  induction items as [|kv items IH]; simpl.
  - split; [constructor|done].
  - rewrite IH. split; [intros (? & ? & ?); by constructor|].
    inversion 1 as [|?? [??] ?]. done.
Qed.

(** every value is read back from the text that [json.dumps] writes for
    it *)
Lemma value_dumps n (j : json) : wf_json j → read_back n j.
Proof.
  induction j as [|b|z|s|items IH|items IH] using json_ind';
    intros Hwf f rest Hf Hrest;
    (destruct f as [|f]; [simpl in Hf; lia|]).
  - apply value_null.
  - destruct b; [apply value_true|apply value_false].
  - by apply value_int.
  - by apply value_str.
  - apply wf_json_list in Hwf.
    change (json_encoder.dumps (JList items))
      with (py "[" ++ json_encoder.join (py ", ") (json_encoder.dumps <$> items)
            ++ py "]").
    rewrite <- !(assoc_L (++)).
    change (py "[" ++ ?s) with (91%N :: s). change (py "]" ++ ?s) with (93%N :: s).
    destruct items as [|x items]; [done|].
    assert (∀ r, json_decoder.value n (S f) (91%N :: r)
                 = match json_decoder.skip_ws r with
                   | c1 :: r1 =>
                       if (c1 =? 93)%N then Ok (JList [], r1)
                       else json_decoder.elements n f [] (json_decoder.skip_ws r)
                   | [] => json_decoder.elements n f [] []
                   end) as -> by done.
    assert (∃ c s, json_encoder.join (py ", ") (json_encoder.dumps <$> x :: items)
                   = c :: s ∧ json_decoder.is_ws c = false ∧ c ≠ 93%N)
      as (c & s & Hjoin & Hws & Hc).
    { destruct (dumps_head x) as (c & s & Hx & Hws & Hc & _).
      destruct items; simpl json_encoder.join; rewrite Hx; by eexists _, _. }
    rewrite Hjoin. change ((c :: s) ++ ?r) with (c :: (s ++ r)).
    rewrite skip_ws_head by done.
    rewrite (proj2 (N.eqb_neq c 93)) by done.
    change (c :: (s ++ ?r)) with ((c :: s) ++ r). rewrite <- Hjoin.
    apply (elements_dumps n (x :: items)); [done| |simpl in *; lia].
    rewrite Forall_forall in Hwf, IH. apply Forall_forall.
    intros y Hy. by apply IH, Hwf.
  - apply wf_json_dict in Hwf as [Hnodup Hwf].
    change (json_encoder.dumps (JDict items))
      with (py "{" ++ json_encoder.join (py ", ") (entry_text <$> items)
            ++ py "}").
    rewrite <- !(assoc_L (++)).
    change (py "{" ++ ?s) with (123%N :: s). change (py "}" ++ ?s) with (125%N :: s).
    destruct items as [|kv items]; [done|].
    assert (∀ r, json_decoder.value n (S f) (123%N :: r)
                 = match json_decoder.skip_ws r with
                   | c1 :: r1 =>
                       if (c1 =? 125)%N then Ok (JDict [], r1)
                       else json_decoder.members n f [] (json_decoder.skip_ws r)
                   | [] => json_decoder.members n f [] []
                   end) as -> by done.
    assert (∃ s, json_encoder.join (py ", ") (entry_text <$> kv :: items)
                 = 34%N :: s) as (s & Hjoin).
    { destruct items; simpl json_encoder.join; by eexists. }
    rewrite Hjoin. change ((34%N :: s) ++ ?r) with (34%N :: (s ++ r)).
    rewrite skip_ws_head by done. cbn [N.eqb Pos.eqb].
    change (34%N :: (s ++ ?r)) with ((34%N :: s) ++ r). rewrite <- Hjoin.
    apply (members_dumps n (kv :: items)); [done| |done|simpl in *; lia].
    rewrite Forall_forall in Hwf, IH. apply Forall_forall.
    intros y Hy. destruct (Hwf y Hy). split; [done|]. by apply IH.
Qed.

Lemma join_length {A} (g : A → nat) (txt : A → str) (items : list A) :
  Forall (λ x, g x ≤ length (txt x) + 1)%nat items →
  (length items + foldr (λ x m, g x + m) 0 items
   ≤ length (json_encoder.join (py ", ") (txt <$> items)) + 2)%nat.
Proof.
  induction 1 as [|x items Hx Hitems IH]; [simpl; lia|].
  destruct items as [|y items].
  - simpl in *. lia.
  - change (json_encoder.join (py ", ") (txt <$> x :: y :: items))
      with (txt x ++ py ", " ++ json_encoder.join (py ", ") (txt <$> y :: items)).
    rewrite !length_app. simpl in *. lia.
Qed.

Lemma fuel_for_dumps (j : json) :
  (fuel_for j ≤ length (json_encoder.dumps j) + 1)%nat.
Proof.
  induction j as [|b|z|s|items IH|items IH] using json_ind'; try (simpl; lia).
  - change (json_encoder.dumps (JList items))
      with (py "[" ++ json_encoder.join (py ", ") (json_encoder.dumps <$> items)
            ++ py "]").
    rewrite !length_app.
    pose proof (join_length fuel_for json_encoder.dumps items IH).
    simpl in *. lia.
  - change (json_encoder.dumps (JDict items))
      with (py "{" ++ json_encoder.join (py ", ") (entry_text <$> items)
            ++ py "}").
    rewrite !length_app.
    assert (Forall (λ kv : str * json,
                      fuel_for kv.2 ≤ length (entry_text kv) + 1)%nat items)
      as Hentries.
    { eapply list.Forall_impl; [exact IH|]. intros [k v] Hv.
      unfold entry_text. rewrite !length_app. simpl in *. lia. }
    pose proof (join_length (λ kv, fuel_for kv.2) entry_text items Hentries).
    simpl in *. lia.
Qed.

(** [json.loads(json.dumps(v)) == v], for the reference decoder *)
Lemma loads_dumps (j : json) :
  wf_json j → json_decoder.loads (json_encoder.dumps j) = Ok j.
Proof.
  intros Hwf. unfold json_decoder.loads.
  assert (json_decoder.skip_ws (json_encoder.dumps j)
          = json_encoder.dumps j ++ []) as ->
    by (rewrite <- (skip_ws_dumps j []); by rewrite app_nil_r).
  rewrite (value_dumps _ j Hwf); [done| |done].
  pose proof (fuel_for_dumps j). lia.
Qed.

(** the sample model round-trips: for every joke, [parse] of its JSON
    serialization is the joke *)
Lemma Joke_parse_roundtrip (PYDANTIC_MAJOR_VERSION : Z) (o : Joke.t) :
  wf_str (Joke.setup o) → wf_str (Joke.punchline o) →
  PydanticOutputParser.parse (H := reference_decoder) PYDANTIC_MAJOR_VERSION
    (PydanticOutputParser.new Joke.cls) (Joke.to_json o)
  = Ok o.
Proof.
  intros Hsetup Hpunchline.
  assert (json_loads (JsonDecoder := reference_decoder) (Joke.to_json o)
          = Ok (Joke.to_dict o)) as Hdec.
  { apply loads_dumps. apply wf_json_dict. split.
    - apply (bool_decide_unpack _). by vm_compute.
    - by repeat constructor. }
  rewrite (parse_decoded _ _ _ _ Hdec), _parse_obj_supported by discriminate.
  by destruct o.
Qed.

(** *** The round trip through the parser *)

Local Ltac by_evaluation := apply (bool_decide_unpack _); vm_compute; exact I.

(** a text of printable ASCII characters has no surrogate *)
Lemma wf_str_printable (s : str) : Forall printable s → wf_str s.
Proof.
  induction 1 as [|c s Hc Hs IH]; simpl; [done|].
  unfold printable in Hc. split; [lia|]. split; [|done].
  intros Hhigh. unfold is_high_surrogate in Hhigh.
  apply Is_true_true, andb_true_iff in Hhigh as [?%N.leb_le _]. lia.
Qed.

Local Ltac wf_by_evaluation :=
  cbn [wf_json foldr fst snd Joke.to_dict Joke.setup Joke.punchline
       Joke.schema_dict Joke.string_field];
  repeat match goal with |- _ ∧ _ => split end;
  lazymatch goal with
  | |- True => exact I
  | |- NoDup _ => by_evaluation
  | |- wf_str _ => apply wf_str_printable; by_evaluation
  end.

(** C2, as amended.  Let [o] be an instance of the model with JSON form
    [to_dict o]: the serialization of [o] is [json.dumps] of that form, and
    the model validates the form to [o].  When the form holds no two dict
    entries with one key and no string with a high surrogate directly
    before a low one, [parse] of the serialization returns [o]: the text
    that [json.dumps] writes is decoded back to the form, which is then
    validated.  Nothing is assumed of the decoding. *)
Theorem parse_roundtrip {T : Type} (PYDANTIC_MAJOR_VERSION : Z)
    (self : PydanticOutputParser.t T) (to_dict : T → json) (o : T) :
  let cls := PydanticOutputParser.pydantic_object self in
  base cls ≠ NotPydantic →
  model_dump_json cls o = json_encoder.dumps (to_dict o) →
  validate cls (to_dict o) = Ok o →
  wf_json (to_dict o) →
  PydanticOutputParser.parse (H := reference_decoder) PYDANTIC_MAJOR_VERSION
    self (model_dump_json cls o)
  = Ok o.
Proof.
  intros cls Hbase Hjson Hval Hwf.
  assert (json_loads (JsonDecoder := reference_decoder) (model_dump_json cls o)
          = Ok (to_dict o)) as Hdec.
  { rewrite Hjson. by apply loads_dumps. }
  rewrite (parse_decoded _ _ _ _ Hdec), _parse_obj_supported by done.
  fold cls. by rewrite Hval.
Qed.

Lemma parse_roundtrip_witness :
  let o := Joke.new (py "Why did the chicken cross the road?")
                    (quoted (py "To get to the 'other' side\n")) in
  base Joke.cls ≠ NotPydantic
  ∧ model_dump_json Joke.cls o = json_encoder.dumps (Joke.to_dict o)
  ∧ validate Joke.cls (Joke.to_dict o) = Ok o
  ∧ wf_json (Joke.to_dict o)
  ∧ PydanticOutputParser.parse (H := reference_decoder) 2
      (PydanticOutputParser.new Joke.cls) (model_dump_json Joke.cls o)
    = Ok o.
Proof.
  intros o.
  assert (base Joke.cls ≠ NotPydantic) as Hbase by discriminate.
  assert (model_dump_json Joke.cls o = json_encoder.dumps (Joke.to_dict o))
    as Hjson by reflexivity.
  assert (validate Joke.cls (Joke.to_dict o) = Ok o) as Hval by reflexivity.
  assert (wf_json (Joke.to_dict o)) as Hwf by (unfold o; wf_by_evaluation).
  split; [exact Hbase|]. split; [exact Hjson|]. split; [exact Hval|].
  split; [exact Hwf|].
  exact (parse_roundtrip 2 (PydanticOutputParser.new Joke.cls) Joke.to_dict o
           Hbase Hjson Hval Hwf).
Defined.

(** C2 as stated fails: a joke whose setup holds a high surrogate directly
    before a low one is an instance of the model, validated from its own
    JSON form, and [json.dumps] writes the two code points as two escapes,
    which [json.loads] reads as the one code point U+1F600.  [parse] of the
    serialization returns another joke. *)
Lemma parse_roundtrip_surrogate_pair :
  let o := Joke.new [0xd83d; 0xde00]%N (py "x") in
  let parser := PydanticOutputParser.new Joke.cls in
  base Joke.cls ≠ NotPydantic
  ∧ model_dump_json Joke.cls o = json_encoder.dumps (Joke.to_dict o)
  ∧ validate Joke.cls (Joke.to_dict o) = Ok o
  ∧ PydanticOutputParser.parse (H := reference_decoder) 2 parser
      (model_dump_json Joke.cls o)
    = Ok (Joke.new [0x1f600]%N (py "x"))
  ∧ PydanticOutputParser.parse (H := reference_decoder) 2 parser
      (model_dump_json Joke.cls o)
    ≠ Ok o.
Proof.
  intros o parser.
  assert (PydanticOutputParser.parse (H := reference_decoder) 2 parser
            (model_dump_json Joke.cls o)
          = Ok (Joke.new [0x1f600]%N (py "x"))) as Hparse
    by (vm_compute; reflexivity).
  split; [discriminate|]. split; [reflexivity|]. split; [reflexivity|].
  split; [exact Hparse|]. rewrite Hparse. by intros [=].
Qed.

(** * Further properties of the code *)

(** ** [DeterministicFakeEmbedding._get_seed] *)

Lemma utf8_char_None c : utf8_char c = None ↔ unencodable c = true.
Proof.
  unfold utf8_char, unencodable.
  repeat case_match; rewrite ?orb_true_iff, ?N.leb_le; try (split; [done|]).
  all: rewrite ?N.ltb_lt, ?N.ltb_ge in *.
  all: try (intros [Hs|Hc]; [|lia]).
  all: try (unfold is_surrogate in *;
            apply andb_true_iff in Hs as [?%N.leb_le ?%N.leb_le]; lia).
  all: try congruence.
  all: split; [intros _|done]; try (by left); right; lia.
Qed.

Lemma encode_from_first pos s :
  match first_unencodable s with
  | Some (i, c) => encode_from pos s = Raise (UnicodeEncodeError (pos + i) c)
  | None => ∃ bs, encode_from pos s = Ok bs
  end.
Proof.
  unfold first_unencodable. revert pos.
  induction s as [|c s IH]; intros pos; simpl; [by eexists|].
  destruct (utf8_char c) as [bs|] eqn:Ec.
  - rewrite decide_False.
    2:{ rewrite <- utf8_char_None. congruence. }
    specialize (IH (S pos)).
    destruct (list_find _ s) as [[i c']|]; simpl.
    + rewrite IH. simpl. do 2 f_equal. lia.
    + destruct IH as [rest ->]. by eexists.
  - rewrite decide_True by by apply utf8_char_None.
    simpl. by rewrite Nat.add_0_r.
Qed.

(** the seeds that CPython computes for the same texts, and the error it
    raises for a text with a surrogate *)
Example _get_seed_vectors :
  let self := DeterministicFakeEmbedding.new 3 in
  DeterministicFakeEmbedding._get_seed self (py "a") = Ok 56493499
  ∧ DeterministicFakeEmbedding._get_seed self (py "hello") = Ok 23427620
  ∧ DeterministicFakeEmbedding._get_seed self (py "ab" ++ [0xDC80%N] ++ py "c")
    = Raise (UnicodeEncodeError 2 0xDC80).
Proof. vm_compute. done. Qed.

Section more_embedding_facts.
Context `{NumpyRandom}.

(** X1.  [_get_seed] has two outcomes.  On a text with a code point that
    UTF-8 cannot encode (a surrogate) it raises [UnicodeEncodeError] with
    the position and the value of the first one.  On every other text it
    returns an integer [s] with [0 <= s < 10**8], and [np.random.seed]
    accepts every such [s]: [int(..., 16)] never fails on the digest and
    the seeding never raises. *)
Theorem _get_seed_result (self : DeterministicFakeEmbedding.t) (text : str) :
  match first_unencodable text with
  | Some (i, c) =>
      DeterministicFakeEmbedding._get_seed self text
      = Raise (UnicodeEncodeError i c)
  | None =>
      ∃ s, DeterministicFakeEmbedding._get_seed self text = Ok s
           ∧ 0 ≤ s < 10 ^ 8
           ∧ ∀ g, np_random.seed s g = (Ok (), seeded s)
  end.
Proof.
  pose proof (encode_from_first 0 text) as Henc.
  unfold DeterministicFakeEmbedding._get_seed, encode_utf8.
  destruct (first_unencodable text) as [[i c]|].
  - by rewrite Henc.
  - destruct Henc as [bs ->]. simpl.
    destruct (int16_hexdigest_sha256 bs) as (n & -> & Hn). simpl.
    assert (0 ≤ n mod 10 ^ 8 < 10 ^ 8) as Hs by (apply Z.mod_pos_bound; lia).
    eexists. split; [done|]. split; [done|].
    intros g. apply seed_ok. lia.
Qed.

(** ** The samples that the embeddings are made of *)

Lemma draws_app n m g :
  np_random.draws (n + m) g
  = let '(xs, g1) := np_random.draws n g in
    let '(ys, g2) := np_random.draws m g1 in
    (xs ++ ys, g2).
Proof.
  revert g. induction n as [|n IH]; intros g; simpl.
  - by destruct (np_random.draws m g).
  - destruct (standard_normal g) as [x g1]. rewrite IH.
    destruct (np_random.draws n g1) as [xs g2].
    by destruct (np_random.draws m g2).
Qed.

Lemma draws_take n m g :
  (n ≤ m)%nat → (np_random.draws n g).1 = take n (np_random.draws m g).1.
Proof.
  intros Hnm. replace m with (n + (m - n))%nat by lia.
  rewrite draws_app. pose proof (draws_length n g) as Hlen.
  destruct (np_random.draws n g) as [xs g1].
  destruct (np_random.draws (m - n) g1) as [ys g2]. simpl in *.
  by rewrite take_app_length' by done.
Qed.

Lemma normal_draws size g :
  0 ≤ size →
  np_random.normal size g
  = (Ok (np_random.draws (Z.to_nat size) g).1,
     (np_random.draws (Z.to_nat size) g).2).
Proof.
  intros Hsize. unfold np_random.normal.
  rewrite bool_decide_eq_false_2 by lia.
  by destruct (np_random.draws _ g).
Qed.

Lemma normal_negative size g :
  size < 0 → np_random.normal size g = (Raise negative_dimensions, g).
Proof.
  intros Hsize. unfold np_random.normal. by rewrite bool_decide_eq_true_2.
Qed.

Lemma mapM_result_app {A B} (f : A → result B) (l1 l2 : list A) :
  mapM f (l1 ++ l2)
  = (k1 ← mapM f l1; k2 ← mapM f l2; Ok (k1 ++ k2)).
Proof.
  induction l1 as [|x l1 IH].
  - simpl. unfold mbind, result_bind. by destruct (mapM f l2).
  - rewrite <- app_comm_cons, !mapM_result_cons, IH.
    unfold mbind, result_bind.
    destruct (f x); [|done]. destruct (mapM f l1); [|done].
    by destruct (mapM f l2).
Qed.

(** X2.  For [size >= 0], [FakeEmbeddings.embed_documents] never fails and
    never looks at the texts: on [k] texts it consumes exactly the next
    [k * size] samples of the global generator, the vectors are the
    consecutive blocks of [size] of these samples, in order, and the
    generator is left where the last sample left it. *)
Theorem fake_embed_documents_stream (self : FakeEmbeddings.t)
    (texts : list str) (g : RandomState) :
  0 ≤ FakeEmbeddings.size self →
  let total := (length texts * Z.to_nat (FakeEmbeddings.size self))%nat in
  ∃ vs,
    FakeEmbeddings.embed_documents self texts g
    = (Ok vs, (np_random.draws total g).2)
    ∧ concat vs = (np_random.draws total g).1
    ∧ embeddings_shape (FakeEmbeddings.size self) texts vs.
Proof.
  intros Hsize. revert g.
  induction texts as [|t texts IH]; intros g.
  - exists []. split; [done|]. split; [done|]. split; [done|constructor].
  - change (length (t :: texts) * ?n)%nat with (n + length texts * n)%nat.
    destruct (IH (np_random.draws (Z.to_nat (FakeEmbeddings.size self)) g).2)
      as (vs & Hrun & Hcat & Hlen & Hall).
    exists ((np_random.draws (Z.to_nat (FakeEmbeddings.size self)) g).1 :: vs).
    unfold FakeEmbeddings.embed_documents in *. rewrite mapM_state_cons.
    unfold FakeEmbeddings._get_embedding at 1.
    rewrite normal_draws, Hrun, draws_app by done.
    pose proof (draws_length (Z.to_nat (FakeEmbeddings.size self)) g) as Hn.
    destruct (np_random.draws (Z.to_nat (FakeEmbeddings.size self)) g)
      as [xs g1].
    simpl in *. rewrite Hcat.
    destruct (np_random.draws _ g1) as [ys g2]. simpl.
    split; [done|]. split; [done|]. split; [simpl; by rewrite Hlen|].
    constructor; [lia|done].
Qed.

(** X3.  With a negative [size] no vector is ever returned.
    [FakeEmbeddings]: [embed_query], and [embed_documents] on a list that
    is not empty, raise [ValueError] and leave the generator as it was;
    [embed_documents([])] returns [[]].  [DeterministicFakeEmbedding]: the
    text is hashed first, so a text that cannot be encoded still raises
    [UnicodeEncodeError] and leaves the generator alone; otherwise
    [ValueError] is raised after the generator has been reseeded, which
    stays in the state seeded by the (first) text. *)
Theorem negative_size_raises (size : Z) (text : str) (texts : list str)
    (g : RandomState) :
  size < 0 →
  let fake := FakeEmbeddings.new size in
  let det := DeterministicFakeEmbedding.new size in
  let outcome (A : Type) : result A * RandomState :=
    match DeterministicFakeEmbedding._get_seed det text with
    | Ok s => (Raise negative_dimensions, seeded s)
    | Raise e => (Raise e, g)
    end in
  FakeEmbeddings.embed_query fake text g = (Raise negative_dimensions, g)
  ∧ FakeEmbeddings.embed_documents fake (text :: texts) g
    = (Raise negative_dimensions, g)
  ∧ FakeEmbeddings.embed_documents fake [] g = (Ok [], g)
  ∧ DeterministicFakeEmbedding.embed_query det text g = outcome _
  ∧ DeterministicFakeEmbedding.embed_documents det (text :: texts) g
    = outcome _
  ∧ DeterministicFakeEmbedding.embed_documents det [] g = (Ok [], g).
Proof.
  intros Hsize fake det outcome.
  assert (DeterministicFakeEmbedding.embed_query det text g = outcome _)
    as Hquery.
  { unfold DeterministicFakeEmbedding.embed_query, outcome.
    unfold mbind at 1. unfold state_bind at 1. unfold lift at 1.
    destruct (DeterministicFakeEmbedding._get_seed det text) as [s|e] eqn:Es;
      [|done].
    apply _get_seed_range in Es.
    rewrite det_get_embedding_eq by lia. by apply normal_negative. }
  split; [by apply normal_negative|]. split; [|split; [done|]].
  { unfold FakeEmbeddings.embed_documents. rewrite mapM_state_cons.
    unfold FakeEmbeddings._get_embedding at 1. simpl.
    by rewrite normal_negative. }
  split; [done|]. split; [|done].
  unfold DeterministicFakeEmbedding.embed_documents. rewrite mapM_state_cons.
  fold (DeterministicFakeEmbedding.embed_query det text). rewrite Hquery.
  unfold outcome.
  by destruct (DeterministicFakeEmbedding._get_seed det text).
Qed.

(** X4.  A batch can be split: the vectors that
    [DeterministicFakeEmbedding.embed_documents] returns for
    [texts1 + texts2] are those it returns for [texts1] followed by those
    it returns for [texts2], whatever state the generator is in at each of
    the three calls; when one part raises, the whole batch raises the same
    exception, the first part going first. *)
Theorem det_embed_documents_app (self : DeterministicFakeEmbedding.t)
    (texts1 texts2 : list str) (g g1 g2 : RandomState) :
  (DeterministicFakeEmbedding.embed_documents self (texts1 ++ texts2) g).1
  = (vs1 ← (DeterministicFakeEmbedding.embed_documents self texts1 g1).1;
     vs2 ← (DeterministicFakeEmbedding.embed_documents self texts2 g2).1;
     Ok (vs1 ++ vs2)).
Proof. rewrite !embed_documents_eq. apply mapM_result_app. Qed.

(** X5.  The embedding of a text at a smaller size is the beginning of
    its embedding at a larger one: for [0 <= n <= m], [embed_query] of the
    deterministic class with [size = n] returns the first [n] components of
    what it returns with [size = m] (and raises what it raises). *)
Theorem det_embed_query_prefix (n m : Z) (text : str) (g1 g2 : RandomState) :
  0 ≤ n ≤ m →
  (DeterministicFakeEmbedding.embed_query
     (DeterministicFakeEmbedding.new n) text g1).1
  = take (Z.to_nat n)
      <$> (DeterministicFakeEmbedding.embed_query
             (DeterministicFakeEmbedding.new m) text g2).1.
Proof.
  intros Hnm. rewrite !embed_query_eq. unfold embedding_of.
  change (DeterministicFakeEmbedding._get_seed
            (DeterministicFakeEmbedding.new m) text)
    with (DeterministicFakeEmbedding._get_seed
            (DeterministicFakeEmbedding.new n) text).
  destruct (DeterministicFakeEmbedding._get_seed _ text) as [s|e]; [|done].
  simpl. rewrite !normal_draws by lia. simpl. f_equal.
  apply draws_take. lia.
Qed.

(** X6.  [DeterministicFakeEmbedding.embed_query] works on the global
    generator that [FakeEmbeddings] draws from.  On a text with seed [s],
    the call is [FakeEmbeddings.embed_query] (same size) run on the
    generator freshly seeded with [s], in its result and in the state it
    leaves; so whatever [FakeEmbeddings] returns right after it no longer
    depends on the state the generator was in before. *)
Theorem det_embed_query_reseeds (self : DeterministicFakeEmbedding.t)
    (text : str) (s : Z) (g : RandomState) :
  DeterministicFakeEmbedding._get_seed self text = Ok s →
  DeterministicFakeEmbedding.embed_query self text g
  = FakeEmbeddings.embed_query
      (FakeEmbeddings.new (DeterministicFakeEmbedding.size self)) text
      (seeded s)
  ∧ ∀ (fake : FakeEmbeddings.t) (text' : str) (g' : RandomState),
      FakeEmbeddings.embed_query fake text'
        (DeterministicFakeEmbedding.embed_query self text g).2
      = FakeEmbeddings.embed_query fake text'
          (DeterministicFakeEmbedding.embed_query self text g').2.
Proof.
  intros Hs.
  assert (∀ g0, DeterministicFakeEmbedding.embed_query self text g0
                = FakeEmbeddings.embed_query
                    (FakeEmbeddings.new (DeterministicFakeEmbedding.size self))
                    text (seeded s)) as Hrun.
  { intros g0. unfold DeterministicFakeEmbedding.embed_query.
    unfold mbind at 1. unfold state_bind at 1. unfold lift at 1.
    rewrite Hs. apply _get_seed_range in Hs.
    by rewrite det_get_embedding_eq by lia. }
  split; [apply Hrun|]. intros fake text' g'. by rewrite !Hrun.
Qed.

(** X7.  The embedding of a text depends on the text through its seed
    alone: two texts with the same seed get the same vector from
    [embed_query], whatever the generator did before.  Seeds are taken
    modulo [10**8], and distinct texts do share one. *)
Theorem same_seed_same_embedding (self : DeterministicFakeEmbedding.t)
    (text1 text2 : str) (g1 g2 : RandomState) :
  DeterministicFakeEmbedding._get_seed self text1
  = DeterministicFakeEmbedding._get_seed self text2 →
  (DeterministicFakeEmbedding.embed_query self text1 g1).1
  = (DeterministicFakeEmbedding.embed_query self text2 g2).1.
Proof.
  intros Hseed. rewrite !embed_query_eq. unfold embedding_of. by rewrite Hseed.
Qed.

End more_embedding_facts.

Lemma fake_embed_documents_stream_witness :
  0 ≤ 2
  ∧ ∃ vs,
      FakeEmbeddings.embed_documents (H := lcg_random) (FakeEmbeddings.new 2)
        [py "hello world"; py "foo bar"; []] 7
      = (Ok vs, (np_random.draws (H := lcg_random) 6 7).2)
      ∧ concat vs = (np_random.draws (H := lcg_random) 6 7).1
      ∧ embeddings_shape 2 [py "hello world"; py "foo bar"; []] vs.
Proof.
  assert (0 ≤ 2) as Hsize by lia.
  split; [exact Hsize|].
  exact (fake_embed_documents_stream (H := lcg_random) (FakeEmbeddings.new 2)
           [py "hello world"; py "foo bar"; []] 7 Hsize).
Defined.

Lemma negative_size_raises_witness :
  -1 < 0
  ∧ FakeEmbeddings.embed_documents (H := lcg_random) (FakeEmbeddings.new (-1))
      [py "a"; py "b"] 7
    = (Raise negative_dimensions, 7)
  ∧ DeterministicFakeEmbedding.embed_documents (H := lcg_random)
      (DeterministicFakeEmbedding.new (-1)) [py "a"; py "b"] 7
    = (Raise negative_dimensions, 56493499)
  ∧ DeterministicFakeEmbedding.embed_query (H := lcg_random)
      (DeterministicFakeEmbedding.new (-1)) [0xD800%N] 7
    = (Raise (UnicodeEncodeError 0 0xD800), 7).
Proof.
  assert (-1 < 0) as Hsize by lia.
  split; [exact Hsize|].
  destruct (negative_size_raises (H := lcg_random) (-1) (py "a") [py "b"] 7
              Hsize) as (_ & Hfake & _ & _ & Hdet & _).
  destruct (negative_size_raises (H := lcg_random) (-1) [0xD800%N] [] 7
              Hsize) as (_ & _ & _ & Hquery & _).
  split; [exact Hfake|]. split; [exact Hdet|]. exact Hquery.
Defined.

Lemma det_embed_query_prefix_witness :
  0 ≤ 2 ≤ 5
  ∧ (DeterministicFakeEmbedding.embed_query (H := lcg_random)
       (DeterministicFakeEmbedding.new 2) (py "hello") 7).1
    = take 2
        <$> (DeterministicFakeEmbedding.embed_query (H := lcg_random)
               (DeterministicFakeEmbedding.new 5) (py "hello") 11).1.
Proof.
  assert (0 ≤ 2 ≤ 5) as Hnm by lia.
  split; [exact Hnm|].
  exact (det_embed_query_prefix (H := lcg_random) 2 5 (py "hello") 7 11 Hnm).
Defined.

Lemma det_embed_query_reseeds_witness :
  let det := DeterministicFakeEmbedding.new 3 in
  DeterministicFakeEmbedding._get_seed det (py "a") = Ok 56493499
  ∧ DeterministicFakeEmbedding.embed_query (H := lcg_random) det (py "a") 7
    = FakeEmbeddings.embed_query (H := lcg_random) (FakeEmbeddings.new 3)
        (py "a") 56493499
  ∧ FakeEmbeddings.embed_query (H := lcg_random) (FakeEmbeddings.new 2)
      (py "b")
      (DeterministicFakeEmbedding.embed_query (H := lcg_random) det (py "a") 7).2
    = FakeEmbeddings.embed_query (H := lcg_random) (FakeEmbeddings.new 2)
        (py "b")
        (DeterministicFakeEmbedding.embed_query (H := lcg_random) det (py "a") 11).2.
Proof.
  intros det.
  assert (DeterministicFakeEmbedding._get_seed det (py "a") = Ok 56493499)
    as Hseed by (vm_compute; reflexivity).
  split; [exact Hseed|].
  destruct (det_embed_query_reseeds (H := lcg_random) det (py "a") 56493499 7
              Hseed) as [Hrun Hafter].
  split; [exact Hrun|]. exact (Hafter (FakeEmbeddings.new 2) (py "b") 11).
Defined.

(** two texts that share the seed 88520469, hence their embedding at every
    size *)
Lemma same_seed_same_embedding_witness :
  let det := DeterministicFakeEmbedding.new 3 in
  py "doc 1886" ≠ py "doc 4016"
  ∧ DeterministicFakeEmbedding._get_seed det (py "doc 1886") = Ok 88520469
  ∧ DeterministicFakeEmbedding._get_seed det (py "doc 1886")
    = DeterministicFakeEmbedding._get_seed det (py "doc 4016")
  ∧ (DeterministicFakeEmbedding.embed_query (H := lcg_random) det
       (py "doc 1886") 7).1
    = (DeterministicFakeEmbedding.embed_query (H := lcg_random) det
         (py "doc 4016") 11).1.
Proof.
  intros det.
  assert (DeterministicFakeEmbedding._get_seed det (py "doc 1886")
          = DeterministicFakeEmbedding._get_seed det (py "doc 4016"))
    as Hseed by (vm_compute; reflexivity).
  split; [discriminate|]. split; [vm_compute; reflexivity|].
  split; [exact Hseed|].
  exact (same_seed_same_embedding (H := lcg_random) det
           (py "doc 1886") (py "doc 4016") 7 11 Hseed).
Defined.

(** ** More on the parser *)

Section more_parser_facts.
Context {T : Type}.
Implicit Types (self : PydanticOutputParser.t T) (obj : json).

(** X8.  Except under pydantic 2 with a class that is no pydantic model,
    [_parse_obj] is the validation of the class with one translation: an
    instance is returned as it is, a [ValidationError] becomes the
    [OutputParserException] of [_parser_exception], and every other
    exception passes unchanged.  The three branches of the code agree, and
    under a major version other than 2 no class is rejected as an
    unsupported model. *)
Theorem _parse_obj_validates (PYDANTIC_MAJOR_VERSION : Z) self obj :
  let cls := PydanticOutputParser.pydantic_object self in
  PYDANTIC_MAJOR_VERSION ≠ 2 ∨ base cls ≠ NotPydantic →
  PydanticOutputParser._parse_obj PYDANTIC_MAJOR_VERSION self obj
  = match validate cls obj with
    | Ok instance => Ok instance
    | Raise (ValidationError reason) =>
        Raise (PydanticOutputParser._parser_exception self
                 (ValidationError reason) obj)
    | Raise e => Raise e
    end.
Proof.
  intros cls Hcase.
  assert (PydanticOutputParser._parse_obj PYDANTIC_MAJOR_VERSION self obj
          = try_except (validate cls obj) is_ValidationError
              (λ e, Raise (PydanticOutputParser._parser_exception self e obj)))
    as ->.
  { destruct Hcase as [Hv|Hbase]; [|by apply _parse_obj_supported].
    unfold PydanticOutputParser._parse_obj.
    by rewrite bool_decide_eq_false_2. }
  unfold try_except. by destruct (validate cls obj) as [o|[]].
Qed.

(** X9.  [_parse_obj] never lets a pydantic [ValidationError] out and
    never makes up a result: under every major version and for every
    class, what it returns is what the validation of the class returned
    for the object, and what it raises is not a [ValidationError]. *)
Theorem _parse_obj_only_validated (PYDANTIC_MAJOR_VERSION : Z) self obj :
  match PydanticOutputParser._parse_obj PYDANTIC_MAJOR_VERSION self obj with
  | Ok instance =>
      validate (PydanticOutputParser.pydantic_object self) obj = Ok instance
  | Raise e => is_ValidationError e = false
  end.
Proof.
  unfold PydanticOutputParser._parse_obj, PydanticOutputParser._parser_exception.
  unfold issubclass_BaseModel, issubclass_v1_BaseModel, model_validate, parse_obj.
  unfold try_except.
  repeat case_bool_decide;
    by destruct (validate (PydanticOutputParser.pydantic_object self) obj)
      as [o|[]].
Qed.

(** X10.  The exception that [_parser_exception] builds carries the
    rejected object: its [llm_output] is a JSON text that [json.loads]
    reads back as the object, and the message holds that text.  It has no
    cause attached.  (The object is made of the JSON values of the model,
    which has no floats; its dicts have distinct keys and its strings no
    high surrogate directly before a low one.) *)
Theorem parser_exception_llm_output self (e : exn) obj :
  wf_json obj →
  ∃ msg json_string,
    PydanticOutputParser._parser_exception self e obj
    = OutputParserException msg (Some json_string) None
    ∧ json_decoder.loads json_string = Ok obj
    ∧ contains json_string msg.
Proof.
  intros Hwf. eexists _, _. split; [reflexivity|]. split.
  - by apply loads_dumps.
  - apply contains_app_r, contains_app_r, contains_app_r, contains_app_l.
    apply contains_refl.
Qed.

(** X11.  [get_format_instructions] can be called again: a second call,
    on the heap that the first one left, returns what the first call
    returned (the same text, or the same exception). *)
Theorem get_format_instructions_repeatable self (h : heap) :
  let first := PydanticOutputParser.get_format_instructions self h in
  let second := PydanticOutputParser.get_format_instructions self first.2 in
  second.1 = first.1.
Proof.
  intros first second. unfold second, first.
  destruct (h !! schema_ref (PydanticOutputParser.pydantic_object self))
    as [d|] eqn:Hlive.
  - rewrite (get_format_instructions_live self h d Hlive). simpl.
    rewrite (get_format_instructions_live self _ d); [done|].
    by apply lookup_app_l_Some.
  - by rewrite get_format_instructions_dangling.
Qed.

Lemma wf_json_reduced (d : dict) :
  wf_json (JDict d) → wf_json (JDict (reduced_schema d)).
Proof.
  rewrite !wf_json_dict. intros [Hnodup Hall]. split.
  - by apply dict_filter_NoDup.
  - unfold reduced_schema. rewrite list.Forall_forall in Hall.
    apply list.Forall_forall.
    intros kv [_ Hin]%list_elem_of_filter. by apply Hall.
Qed.

(** X12.  The schema inside the instructions is well-formed JSON: the
    text between the fixed head and the closing fence is read by
    [json.loads] as the schema dict without its top-level [title] and
    [type].  (The schema is made of the JSON values of the model, which
    has no floats, with strings that [json.loads] gives back
    unchanged.) *)
Theorem format_instructions_schema_decodes self (h : heap) (d : dict) :
  h !! schema_ref (PydanticOutputParser.pydantic_object self) = Some d →
  wf_json (JDict d) →
  ∃ schema_str,
    (PydanticOutputParser.get_format_instructions self h).1
    = Ok (instructions_head ++ schema_str ++ instructions_tail)
    ∧ json_decoder.loads schema_str = Ok (JDict (reduced_schema d)).
Proof.
  intros Hlive Hwf.
  exists (json_encoder.dumps (JDict (reduced_schema d))). split.
  - rewrite (get_format_instructions_live self h d Hlive). simpl.
    rewrite working_copy_reduced; [done|]. by apply wf_json_dict in Hwf as [? _].
  - by apply loads_dumps, wf_json_reduced.
Qed.

End more_parser_facts.

(** *** [json.dumps] writes printable ASCII *)

Lemma hex_digit_printable d : 0 ≤ d < 16 → printable (hashlib.hex_digit d).
Proof.
  intros Hd. unfold printable, hashlib.hex_digit. case_match; lia.
Qed.

Lemma land_nibble z : 0 ≤ Z.land z 0xf < 16.
Proof.
  change 0xf with (Z.ones 4). rewrite Z.land_ones by lia.
  apply Z.mod_pos_bound. lia.
Qed.

Lemma hex4_printable (n : N) : Forall printable (json_encoder.hex4 n).
Proof.
  unfold json_encoder.hex4.
  repeat constructor; apply hex_digit_printable, land_nibble.
Qed.

Lemma escape_char_printable (c : N) :
  Forall printable (json_encoder.escape_char c).
Proof.
  assert (∀ s, Forall printable (py "\u" ++ s) ↔ Forall printable s) as Hu.
  { intros s. rewrite Forall_app. split; [by intros [_ ?]|]. split; [|done].
    by_evaluation. }
  unfold json_encoder.escape_char.
  repeat case_match;
    [by_evaluation .. | apply Hu, hex4_printable | | ].
  - apply Hu, Forall_app. split; [apply hex4_printable|].
    apply Hu, hex4_printable.
  - match goal with Hc : (_ || _) = false |- _ =>
      apply orb_false_iff in Hc as [?%N.ltb_ge ?%N.ltb_ge] end.
    constructor; [unfold printable; lia|constructor].
Qed.

Lemma encode_basestring_ascii_printable (s : str) :
  Forall printable (json_encoder.encode_basestring_ascii s).
Proof.
  unfold json_encoder.encode_basestring_ascii.
  rewrite !Forall_app. split; [|split].
  - by_evaluation.
  - induction s as [|c s IH]; [constructor|].
    change ((c :: s) ≫= json_encoder.escape_char)
      with (json_encoder.escape_char c ++ (s ≫= json_encoder.escape_char)).
    apply Forall_app. split; [apply escape_char_printable|done].
  - by_evaluation.
Qed.

Lemma repr_int_printable (z : Z) : Forall printable (json_encoder.repr_int z).
Proof.
  assert (∀ u, Forall printable (json_encoder.uint_digits u)) as Hdigits.
  { induction u; simpl; constructor; (done || (unfold printable; lia)). }
  unfold json_encoder.repr_int. destruct (Z.to_int z); [done|].
  constructor; [unfold printable; lia|done].
Qed.

Lemma join_printable (sep : str) (parts : list str) :
  Forall printable sep → Forall (Forall printable) parts →
  Forall printable (json_encoder.join sep parts).
Proof.
  intros Hsep. induction 1 as [|p parts Hp Hparts IH]; [constructor|].
  destruct parts as [|q parts]; [done|].
  change (json_encoder.join sep (p :: q :: parts))
    with (p ++ sep ++ json_encoder.join sep (q :: parts)).
  rewrite !Forall_app. done.
Qed.

Lemma dumps_printable (j : json) : Forall printable (json_encoder.dumps j).
Proof.
  assert (Forall printable (py ", ")) as Hsep by by_evaluation.
  induction j as [|b|z|s|items IH|items IH] using json_ind'.
  - by_evaluation.
  - destruct b; by_evaluation.
  - apply repr_int_printable.
  - apply encode_basestring_ascii_printable.
  - change (json_encoder.dumps (JList items))
      with (py "[" ++ json_encoder.join (py ", ") (json_encoder.dumps <$> items)
            ++ py "]").
    rewrite !Forall_app. split; [|split].
    + by_evaluation.
    + apply join_printable; [done|]. by apply Forall_fmap.
    + by_evaluation.
  - change (json_encoder.dumps (JDict items))
      with (py "{" ++ json_encoder.join (py ", ") (entry_text <$> items)
            ++ py "}").
    rewrite !Forall_app. split; [|split].
    + by_evaluation.
    + apply join_printable; [done|]. apply Forall_fmap.
      eapply list.Forall_impl; [exact IH|]. intros [k v] Hv. simpl in *.
      unfold entry_text. rewrite !Forall_app. split; [|split; [|done]].
      * apply encode_basestring_ascii_printable.
      * by_evaluation.
    + by_evaluation.
Qed.

(** X13.  Whatever characters the schema holds, the instructions are
    ASCII: every character of the text that [get_format_instructions]
    returns is a printable ASCII character or a line feed, since
    [json.dumps] escapes everything else in the embedded schema. *)
Theorem format_instructions_ascii {T : Type} (self : PydanticOutputParser.t T)
    (h : heap) (instructions : str) :
  (PydanticOutputParser.get_format_instructions self h).1 = Ok instructions →
  ascii_lines instructions.
Proof.
  assert (∀ a b : str, Ok a = Ok b → a = b) as Hinj by (by intros a b [= ->]).
  destruct (h !! schema_ref (PydanticOutputParser.pydantic_object self))
    as [d|] eqn:Hlive.
  - rewrite (get_format_instructions_live self h d Hlive). cbn [fst].
    intros <-%Hinj. unfold ascii_lines. rewrite !Forall_app. split; [|split].
    + by_evaluation.
    + eapply list.Forall_impl; [apply dumps_printable|]. by right.
    + by_evaluation.
  - unfold PydanticOutputParser.get_format_instructions.
    unfold mbind at 1. unfold state_bind at 1. unfold schema at 1.
    unfold mret at 1. unfold state_ret at 1.
    unfold mbind at 1. unfold state_bind at 1. unfold Heap.load at 1.
    by rewrite Hlive.
Qed.

(** *** The parser on the sample classes *)

Lemma _parse_obj_validates_witness :
  let joke := Joke.new (py "why") (py "because") in
  (1 ≠ 2 ∨ base Point.cls ≠ NotPydantic)
  ∧ (1 ≠ 2 ∨ base Joke.cls ≠ NotPydantic)
  ∧ PydanticOutputParser._parse_obj 1 (PydanticOutputParser.new Point.cls)
      (JDict [])
    = Raise (AttributeError
               (py "type object 'Point' has no attribute 'parse_obj'"))
  ∧ PydanticOutputParser._parse_obj 1 (PydanticOutputParser.new Joke.cls)
      (Joke.to_dict joke)
    = Ok joke.
Proof.
  intros joke.
  assert (1 ≠ 2 ∨ base Point.cls ≠ NotPydantic) as Hpoint by (left; lia).
  assert (1 ≠ 2 ∨ base Joke.cls ≠ NotPydantic) as Hjoke by (left; lia).
  split; [exact Hpoint|]. split; [exact Hjoke|]. split.
  - exact (_parse_obj_validates 1 (PydanticOutputParser.new Point.cls)
             (JDict []) Hpoint).
  - exact (_parse_obj_validates 1 (PydanticOutputParser.new Joke.cls)
             (Joke.to_dict joke) Hjoke).
Defined.

Lemma parser_exception_llm_output_witness :
  let obj := JDict [(py "setup", JStr (py "why"))] in
  wf_json obj
  ∧ ∃ msg json_string,
      PydanticOutputParser._parser_exception (PydanticOutputParser.new Joke.cls)
        (ValidationError (py "punchline: field required")) obj
      = OutputParserException msg (Some json_string) None
      ∧ json_decoder.loads json_string = Ok obj
      ∧ contains json_string msg.
Proof.
  intros obj.
  assert (wf_json obj) as Hwf by (unfold obj; wf_by_evaluation).
  split; [exact Hwf|].
  exact (parser_exception_llm_output (PydanticOutputParser.new Joke.cls)
           (ValidationError (py "punchline: field required")) obj Hwf).
Defined.

Lemma format_instructions_schema_decodes_witness :
  Joke.heap0 !! schema_ref Joke.cls = Some Joke.schema_dict
  ∧ wf_json (JDict Joke.schema_dict)
  ∧ ∃ schema_str,
      (PydanticOutputParser.get_format_instructions
         (PydanticOutputParser.new Joke.cls) Joke.heap0).1
      = Ok (instructions_head ++ schema_str ++ instructions_tail)
      ∧ json_decoder.loads schema_str
        = Ok (JDict (reduced_schema Joke.schema_dict)).
Proof.
  assert (Joke.heap0 !! schema_ref Joke.cls = Some Joke.schema_dict)
    as Hlive by reflexivity.
  assert (wf_json (JDict Joke.schema_dict)) as Hwf by wf_by_evaluation.
  split; [exact Hlive|]. split; [exact Hwf|].
  exact (format_instructions_schema_decodes (PydanticOutputParser.new Joke.cls)
           Joke.heap0 Joke.schema_dict Hlive Hwf).
Defined.

Lemma format_instructions_ascii_witness :
  let instructions :=
    instructions_head
    ++ quoted (py "{'properties': {'setup': {'title': 'Setup', 'type': 'string'}, 'punchline': {'title': 'Punchline', 'type': 'string'}}, 'required': ['setup', 'punchline']}")
    ++ instructions_tail in
  (PydanticOutputParser.get_format_instructions
     (PydanticOutputParser.new Joke.cls) Joke.heap0).1
  = Ok instructions
  ∧ ascii_lines instructions.
Proof.
  intros instructions.
  assert ((PydanticOutputParser.get_format_instructions
             (PydanticOutputParser.new Joke.cls) Joke.heap0).1
          = Ok instructions) as Hrun by (vm_compute; reflexivity).
  split; [exact Hrun|].
  exact (format_instructions_ascii (PydanticOutputParser.new Joke.cls)
           Joke.heap0 instructions Hrun).
Defined.
